(** * A shallow embedding of the storefront backend [app.py]

    The Flask views of [app.py] are embedded as functions over an explicit
    state (the two SQLite tables and the upload directory).  A view returns
    the response it sends, or the exception it lets escape, together with
    the state it leaves behind.

    Conventions of the model.
    - A Python [str] is a [string] whose characters are code points below
      256.
    - [request.args] and [request.files] are finite maps, and [request.json]
      is the JSON object of the body, a finite map from keys to values.
    - A JSON column (meta_json, items_json, ...) is kept as a [blob]: either
      the text of a JSON value or a text that is not JSON.  The code only
      ever writes these columns with [json.dumps] and reads them with
      [json.loads].
    - created_at holds seconds since the epoch; SQLite keeps it as the text
      'YYYY-MM-DD HH:MM:SS', whose text order is the order of the seconds.
    - A REAL cell is a rational number. *)

From Stdlib Require Import ZArith QArith Lia.
From Stdlib Require Import Strings.String Strings.Ascii Numbers.DecimalString.
From stdpp Require Import base option list strings gmap sorting.

Set Warnings "-register-all".
Close Scope Q_scope.
Local Open Scope string_scope.
Local Open Scope Z_scope.

(** ** Python values *)

(** What [request.json] and [json.loads] produce, and what [jsonify] and
    [json.dumps] take. *)
Inductive json : Type :=
  | JNull
  | JBool (b : bool)
  | JInt (z : Z)
  | JReal (q : Q)
  | JStr (s : string)
  | JArr (l : list json)
  | JObj (l : list (string * json)).

(** The text of a JSON column. *)
Inductive blob : Type :=
  | Valid (j : json)
  | Malformed (raw : string).

Definition json_dumps (j : json) : blob := Valid j.

Definition json_loads (b : blob) : option json :=
  match b with
  | Valid j => Some j
  | Malformed _ => None
  end.

(** Python truthiness of a fetched text cell: [None] and [''] are false. *)
Definition truthy (c : option blob) : bool :=
  match c with
  | None => false
  | Some (Malformed "") => false
  | Some _ => true
  end.

(** The exceptions the views can meet. *)
Inductive exn : Type :=
  | KeyError (key : string)
  | TypeError
  | JSONDecodeError
  | OverflowError
  | InterfaceError (param : nat)
  | IntegrityError (constraint : string).

Definition nat_to_string (n : nat) : string :=
  NilZero.string_of_uint (Nat.to_uint n).

(** [str(e)]; a refused parameter is worded as [sqlite3] does up to
    Python 3.10. *)
Definition exn_str (e : exn) : string :=
  match e with
  | KeyError k => "'" +:+ k +:+ "'"
  | TypeError => "the JSON object must be str, bytes or bytearray, not NoneType"
  | JSONDecodeError => "Expecting value: line 1 column 1 (char 0)"
  | OverflowError => "Python int too large to convert to SQLite INTEGER"
  | InterfaceError n =>
      "Error binding parameter " +:+ nat_to_string n +:+ " - probably unsupported type."
  | IntegrityError c => c
  end.

Inductive result (A : Type) : Type :=
  | Ok (a : A)
  | Raise (e : exn).
Arguments Ok {A} a.
Arguments Raise {A} e.

Global Instance result_bind : MBind result := λ A B k r,
  match r with
  | Ok a => k a
  | Raise e => Raise e
  end.

Fixpoint mapR {A B} (f : A → result B) (l : list A) : result (list B) :=
  match l with
  | [] => Ok []
  | a :: l' => b ← f a; bs ← mapR f l'; Ok (b :: bs)
  end.

(** ** Strings *)

Definition code (c : ascii) : N := N_of_ascii c.

(** [str.isspace] on one character. *)
Definition py_isspace (c : ascii) : bool :=
  let n := code c in
  ((9 <=? n) && (n <=? 13) || (28 <=? n) && (n <=? 32)
   || (n =? 133) || (n =? 160))%N.

Fixpoint lstrip (drop : ascii → bool) (s : string) : string :=
  match s with
  | "" => ""
  | String c s' => if drop c then lstrip drop s' else s
  end.

Fixpoint rstrip (drop : ascii → bool) (s : string) : string :=
  match s with
  | "" => ""
  | String c s' =>
      match rstrip drop s' with
      | "" => if drop c then "" else String c ""
      | t => String c t
      end
  end.

(** [s.strip()] *)
Definition strip (s : string) : string :=
  rstrip py_isspace (lstrip py_isspace s).

Definition py_lower_char (c : ascii) : ascii :=
  let n := code c in
  if ((65 <=? n) && (n <=? 90)
      || (192 <=? n) && (n <=? 222) && negb (n =? 215))%N
  then ascii_of_N (n + 32) else c.

(** [s.lower()] *)
Fixpoint lower (s : string) : string :=
  match s with
  | "" => ""
  | String c s' => String (py_lower_char c) (lower s')
  end.

(** ['.' in s] *)
Fixpoint has_dot (s : string) : bool :=
  match s with
  | "" => false
  | String c s' => if decide (c = "."%char) then true else has_dot s'
  end.

(** [s.rsplit('.', 1)]: split at the last dot, if there is one. *)
Fixpoint rsplit_dot (s : string) : list string :=
  match s with
  | "" => [""]
  | String c s' =>
      match rsplit_dot s' with
      | [h; t] => [String c h; t]
      | _ => if decide (c = "."%char) then [""; s'] else [s]
      end
  end.

Definition digit_val (c : ascii) : option Z :=
  let n := code c in
  if ((48 <=? n) && (n <=? 57))%N then Some (Z.of_N n - 48) else None.

(** Decimal digits with single underscores between them. *)
Fixpoint int_digits (s : string) (acc : Z) (after_digit : bool) : option Z :=
  match s with
  | "" => if after_digit then Some acc else None
  | String c s' =>
      if decide (c = "_"%char)
      then (if after_digit then int_digits s' acc false else None)
      else match digit_val c with
           | Some d => int_digits s' (10 * acc + d) true
           | None => None
           end
  end.

Fixpoint count_digits (s : string) : nat :=
  match s with
  | "" => 0%nat
  | String c s' => ((if digit_val c is Some _ then 1 else 0) + count_digits s')%nat
  end.

(** [int(s)] for a [str]: [None] is [ValueError].  Surrounding white space
    and a sign are accepted; more than 4300 digits are refused. *)
Definition py_int (s : string) : option Z :=
  let t := strip s in
  if decide (4300 < count_digits t)%nat then None
  else match t with
       | String "+" r => int_digits r 0 false
       | String "-" r => Z.opp <$> int_digits r 0 false
       | _ => int_digits t 0 false
       end.

(** ** SQLite *)

(** ASCII case folding of [LIKE]. *)
Definition sqlite_lower (c : ascii) : ascii :=
  let n := code c in
  if ((65 <=? n) && (n <=? 90))%N then ascii_of_N (n + 32) else c.

(** [s LIKE p]: [%] matches any run of characters, [_] one character, any
    other character itself up to ASCII case. *)
Fixpoint like (p : string) (s : string) {struct p} : bool :=
  match p with
  | "" => if s is "" then true else false
  | String pc p' =>
      if decide (pc = "%"%char) then
        (fix any_run (t : string) : bool :=
           like p' t || match t with
                        | "" => false
                        | String _ t' => any_run t'
                        end) s
      else
        match s with
        | "" => false
        | String c s' =>
            (bool_decide (pc = "_"%char)
             || bool_decide (sqlite_lower pc = sqlite_lower c))
            && like p' s'
        end
  end.

(** A cell of a column with REAL affinity. *)
Inductive cell : Type :=
  | CNull
  | CReal (q : Q)
  | CText (s : string).

(** The order of [ORDER BY] on cells: NULL, then numbers, then text. *)
Definition cell_leb (a b : cell) : bool :=
  match a, b with
  | CNull, _ => true
  | CReal _, CNull => false
  | CReal p, CReal q => Qle_bool p q
  | CReal _, CText _ => true
  | CText _, CNull => false
  | CText _, CReal _ => false
  | CText s, CText t => String.leb s t
  end.

Definition cell_le (a b : cell) : Prop := cell_leb a b.

Definition int64 (z : Z) : bool := (- 2 ^ 63 <=? z) && (z <? 2 ^ 63).

(** Binding a Python [int] to a statement. *)
Definition bind_int (z : Z) : result Z :=
  if int64 z then Ok z else Raise OverflowError.

(** [LIMIT limit OFFSET offset]: a negative limit is no limit, a negative
    offset is none. *)
Definition limit_offset {A} (limit offset : Z) (rows : list A) : list A :=
  let rest := drop (Z.to_nat offset) rows in
  if limit <? 0 then rest else take (Z.to_nat limit) rest.

(** A value bound to a [?] of a statement. *)
Inductive sqlval : Type :=
  | VNull
  | VInt (z : Z)
  | VReal (q : Q)
  | VText (s : string).

(** The adaptation of Python values by [sqlite3]: lists and dicts are
    refused, and so is an [int] outside 64 bits. *)
Definition bind_param (pos : nat) (j : json) : result sqlval :=
  match j with
  | JNull => Ok VNull
  | JBool b => Ok (VInt (if b then 1 else 0))
  | JInt z => z' ← bind_int z; Ok (VInt z')
  | JReal q => Ok (VReal q)
  | JStr s => Ok (VText s)
  | JArr _ | JObj _ => Raise (InterfaceError pos)
  end.

Definition Z_to_string (z : Z) : string :=
  NilZero.string_of_int (Z.to_int z).

(** [a = b] on two TEXT cells; NULL equals nothing. *)
Definition sql_eq (a b : option string) : bool :=
  match a, b with
  | Some x, Some y => bool_decide (x = y)
  | _, _ => false
  end.

(** The text ['YYYY-MM-DD HH:MM:SS'] of a time in seconds since the epoch. *)
Definition civil_from_days (days : Z) : Z * Z * Z :=
  let z := days + 719468 in
  let era := z / 146097 in
  let doe := z - era * 146097 in
  let yoe := (doe - doe / 1460 + doe / 36524 - doe / 146096) / 365 in
  let doy := doe - (365 * yoe + yoe / 4 - yoe / 100) in
  let mp := (5 * doy + 2) / 153 in
  let d := doy - (153 * mp + 2) / 5 + 1 in
  let m := if mp <? 10 then mp + 3 else mp - 9 in
  let y := yoe + era * 400 in
  (if m <=? 2 then y + 1 else y, m, d).

Definition pad2 (z : Z) : string :=
  if z <? 10 then "0" +:+ Z_to_string z else Z_to_string z.

Definition pad4 (z : Z) : string :=
  if z <? 10 then "000" +:+ Z_to_string z
  else if z <? 100 then "00" +:+ Z_to_string z
  else if z <? 1000 then "0" +:+ Z_to_string z
  else Z_to_string z.

Definition sql_datetime (t : Z) : string :=
  let '(y, m, d) := civil_from_days (t / 86400) in
  let secs := t mod 86400 in
  pad4 y +:+ "-" +:+ pad2 m +:+ "-" +:+ pad2 d +:+ " " +:+
  pad2 (secs / 3600) +:+ ":" +:+ pad2 (secs mod 3600 / 60) +:+ ":" +:+
  pad2 (secs mod 60).

(** ** The tables, the session and the responses *)

(** A row of [products]. *)
Record product : Type := {
  p_id : string;
  p_name : string;
  p_price : cell;
  p_url : option string;
  p_options_count : option Z;
  p_meta_json : option blob;
  p_detail_json : option blob;
}.

(** A row of [orders].  The CREATE TABLE names both [id] and [order_ref]
    as primary key: [id] counts up and [order_ref] is kept unique. *)
Record order : Type := {
  o_id : Z;
  o_order_ref : option string;
  o_uid : string;
  o_email : option string;
  o_total_amount : option string;
  o_status : option string;
  o_created_at : Z;
  o_items_json : option blob;
  o_shipping_json : option blob;
  o_transaction_id : option string;
}.

(** The database file and the upload folder. *)
Record state : Type := {
  products : list product;
  orders : list order;
  orders_seq : Z;
  proofs : gmap string string;
}.

(** [session['user']] *)
Record user : Type := {
  uid : string;
  email : json;
  name : json;
}.

Record session : Type := {
  sess_user : option user;
  sess_is_admin : bool;
}.

Record response : Type := {
  status_code : Z;
  body : json;
}.

(** [jsonify(d), code] *)
Definition jsonify (code : Z) (d : list (string * json)) : response :=
  {| status_code := code; body := JObj d |}.

Definition unauthorized : response :=
  jsonify 401 [("error", JStr "Unauthorized")].

(** [d[k]] on a JSON object, as [jsonify] sends it. *)
Fixpoint jget (k : string) (d : list (string * json)) : option json :=
  match d with
  | [] => None
  | (k', v) :: d' => if decide (k = k') then Some v else jget k d'
  end.

Definition field (k : string) (r : response) : option json :=
  match body r with
  | JObj d => jget k d
  | _ => None
  end.

Definition text_json (c : option string) : json :=
  match c with
  | None => JNull
  | Some s => JStr s
  end.

Definition cell_json (c : cell) : json :=
  match c with
  | CNull => JNull
  | CReal q => JReal q
  | CText s => JStr s
  end.

(** [json.loads(c)] on a fetched cell. *)
Definition loads_cell (c : option blob) : result json :=
  match c with
  | None => Raise TypeError
  | Some b => match json_loads b with
              | Some j => Ok j
              | None => Raise JSONDecodeError
              end
  end.

(** ** GET /api/products *)

Definition price_le (a b : product) : Prop := cell_le (p_price a) (p_price b).
Definition name_le (a b : product) : Prop := String.le (p_name a) (p_name b).

Global Instance price_le_dec : RelDecision price_le.
Proof. intros a b. unfold price_le, cell_le. apply _. Defined.

Global Instance name_le_dec : RelDecision name_le.
Proof. intros a b. unfold name_le. apply _. Defined.

(** The ORDER BY clause chosen by [sort_mode]; without one the rows stay in
    the order of the table.  Rows with equal keys keep their order here; SQL
    leaves it open, and no property below depends on it. *)
Definition order_by (sort_mode : string) (rows : list product) : list product :=
  if decide (sort_mode = "low-to-high") then merge_sort price_le rows
  else if decide (sort_mode = "high-to-low") then merge_sort (flip price_le) rows
  else if decide (sort_mode = "a-z") then merge_sort name_le rows
  else if decide (sort_mode = "z-a") then merge_sort (flip name_le) rows
  else rows.

(** The WHERE clause: none for an empty [search_query]. *)
Definition matching (search_query : string) (ps : list product) : list product :=
  if decide (search_query = "") then ps
  else filter (λ p, like ("%" +:+ search_query +:+ "%") (p_name p)) ps.

(** [int(request.args.get(k, d))] *)
Definition arg_int (args : gmap string string) (k : string) (d : Z) : option Z :=
  match args !! k with
  | Some s => py_int s
  | None => Some d
  end.

(** The [try] block around the two [int] calls. *)
Definition page_limit (args : gmap string string) : Z * Z :=
  match arg_int args "page" 1 with
  | Some page =>
      match arg_int args "limit" 20 with
      | Some limit => (page, limit)
      | None => (1, 20)
      end
  | None => (1, 20)
  end.

(** The count query and the page query. *)
Definition select_products (search_query sort_mode : string) (limit offset : Z)
    (ps : list product) : result (Z * list product) :=
  let total_count := Z.of_nat (length (matching search_query ps)) in
  limit' ← bind_int limit;
  offset' ← bind_int offset;
  Ok (total_count,
      limit_offset limit' offset' (order_by sort_mode (matching search_query ps))).

Definition get_products_api (args : gmap string string) (st : state)
    : result response :=
  let search_query := strip (default "" (args !! "q")) in
  let sort_mode := default "" (args !! "sort") in
  let page := (page_limit args).1 in
  let limit := (page_limit args).2 in
  let offset := (page - 1) * limit in
  sel ← select_products search_query sort_mode limit offset (products st);
  products ← mapR (λ row, loads_cell (p_meta_json row)) sel.2;
  Ok (jsonify 200 [("total", JInt sel.1);
                   ("page", JInt page);
                   ("limit", JInt limit);
                   ("count", JInt (Z.of_nat (length products)));
                   ("products", JArr products)]).

(** ** GET /api/my-orders *)

Definition unpaid (o : order) : bool :=
  sql_eq (o_status o) (Some "Pending Verification")
  || sql_eq (o_status o) (Some "pending_payment").

(** The WHERE clause of the DELETE; [now - 86400] is
    [datetime('now', '-24 hours')]. *)
Definition stale (uid : string) (now : Z) (o : order) : bool :=
  bool_decide (o_uid o = uid) && unpaid o && (o_created_at o <? now - 86400).

Definition newer_first (a b : order) : Prop := o_created_at b ≤ o_created_at a.

Global Instance newer_first_dec : RelDecision newer_first.
Proof. intros a b. unfold newer_first. apply _. Defined.

Definition delete_stale (uid : string) (now : Z) (os : list order) : list order :=
  filter (λ o, stale uid now o = false) os.

Definition select_mine (uid : string) (os : list order) : list order :=
  merge_sort newer_first (filter (λ o, o_uid o = uid) os).

Definition order_entry (row : order) : result json :=
  items_data ← (if truthy (o_items_json row) then loads_cell (o_items_json row)
                else Ok (JArr []));
  shipping_data ← (if truthy (o_shipping_json row)
                   then loads_cell (o_shipping_json row) else Ok (JObj []));
  Ok (JObj [("order_ref", text_json (o_order_ref row));
            ("total_amount", text_json (o_total_amount row));
            ("status", text_json (o_status row));
            ("items", items_data);
            ("shipping", shipping_data);
            ("created_at", JStr (sql_datetime (o_created_at row)));
            ("transaction_id", text_json (o_transaction_id row))]).

Definition set_orders (os : list order) (st : state) : state :=
  {| products := products st; orders := os; orders_seq := orders_seq st;
     proofs := proofs st |}.

Definition get_my_orders (s : session) (now : Z) (st : state)
    : result response * state :=
  match sess_user s with
  | None => (Ok unauthorized, st)
  | Some u =>
      let st' := set_orders (delete_stale (uid u) now (orders st)) st in
      match mapR order_entry (select_mine (uid u) (orders st')) with
      | Ok results => (Ok {| status_code := 200; body := JArr results |}, st')
      | Raise e => (Ok (jsonify 500 [("error", JStr "Failed to fetch orders")]), st')
      end
  end.

Section views.

(** What SQLite and Unicode do outside the model: the text of a REAL stored
    in a TEXT column, the number a text stands for when it is stored in a
    REAL column, and what is left of a character above 127 after NFKD
    normalisation and ASCII encoding. *)
Variable real_to_text : Q → string.
Variable text_to_real : string → option Q.
Variable nfkd_ascii : ascii → string.

(** Storing into a column with TEXT affinity, and comparing with one. *)
Definition text_affinity (v : sqlval) : option string :=
  match v with
  | VNull => None
  | VInt z => Some (Z_to_string z)
  | VReal q => Some (real_to_text q)
  | VText s => Some s
  end.

(** Storing into a column with REAL affinity. *)
Definition real_affinity (v : sqlval) : cell :=
  match v with
  | VNull => CNull
  | VInt z => CReal (inject_Z z)
  | VReal q => CReal q
  | VText s => match text_to_real s with
               | Some q => CReal q
               | None => CText s
               end
  end.

(** ** POST /api/orders *)

(** The INSERT; [order_ref] is declared a key, [id] counts up and
    [created_at] defaults to the current time. *)
Definition insert_order (row : order) (now : Z) (st : state) : result state :=
  if existsb (λ o, sql_eq (o_order_ref o) (o_order_ref row)) (orders st)
  then Raise (IntegrityError "UNIQUE constraint failed: orders.order_ref")
  else Ok {| products := products st;
             orders := orders st ++
               [{| o_id := orders_seq st + 1;
                   o_order_ref := o_order_ref row;
                   o_uid := o_uid row;
                   o_email := o_email row;
                   o_total_amount := o_total_amount row;
                   o_status := o_status row;
                   o_created_at := now;
                   o_items_json := o_items_json row;
                   o_shipping_json := o_shipping_json row;
                   o_transaction_id := o_transaction_id row |}];
             orders_seq := orders_seq st + 1;
             proofs := proofs st |}.

(** The body of the [try] of [create_order]. *)
Definition try_create_order (u : user) (data : gmap string json) (now : Z)
    (st : state) : result state :=
  let order_ref := default JNull (data !! "orderRef") in
  let email := default JNull (data !! "email") in
  let total := default JNull (data !! "total") in
  let status := default (JStr "pending_payment") (data !! "status") in
  let tx_id := default JNull (data !! "transactionId") in
  let items_json := json_dumps (default (JArr []) (data !! "items")) in
  let shipping_json := json_dumps (default (JObj []) (data !! "shipping")) in
  v_ref ← bind_param 0 order_ref;
  v_email ← bind_param 2 email;
  v_total ← bind_param 3 total;
  v_status ← bind_param 4 status;
  v_tx ← bind_param 7 tx_id;
  insert_order {| o_id := 0;
                  o_order_ref := text_affinity v_ref;
                  o_uid := uid u;
                  o_email := text_affinity v_email;
                  o_total_amount := text_affinity v_total;
                  o_status := text_affinity v_status;
                  o_created_at := now;
                  o_items_json := Some items_json;
                  o_shipping_json := Some shipping_json;
                  o_transaction_id := text_affinity v_tx |} now st.

Definition create_order (s : session) (data : gmap string json) (now : Z)
    (st : state) : result response * state :=
  match sess_user s with
  | None => (Ok unauthorized, st)
  | Some u =>
      match try_create_order u data now st with
      | Ok st' =>
          (Ok (jsonify 200 [("success", JBool true);
                            ("order_ref", default JNull (data !! "orderRef"))]),
           st')
      | Raise e =>
          (Ok (jsonify 500 [("error", JStr "Failed to create order")]), st)
      end
  end.

(** ** POST /api/upload *)

Definition ALLOWED_EXTENSIONS : gset string := {[ "png"; "jpg"; "jpeg"; "pdf" ]}.

Definition allowed_file (filename : string) : bool :=
  has_dot filename
  && bool_decide (lower (default "" (rsplit_dot filename !! 1%nat))
                  ∈ ALLOWED_EXTENSIONS).

Fixpoint to_ascii (s : string) : string :=
  match s with
  | "" => ""
  | String c s' =>
      (if (code c <? 128)%N then String c "" else nfkd_ascii c) +:+ to_ascii s'
  end.

Fixpoint replace_sep (s : string) : string :=
  match s with
  | "" => ""
  | String c s' =>
      String (if decide (c = "/"%char) then " "%char else c) (replace_sep s')
  end.

(** ["_".join(s.split())] on a stripped string. *)
Fixpoint join_words (in_space : bool) (s : string) : string :=
  match s with
  | "" => ""
  | String c s' =>
      if py_isspace c
      then (if in_space then join_words true s'
            else String "_" (join_words true s'))
      else String c (join_words false s')
  end.

Definition filename_char (c : ascii) : bool :=
  let n := code c in
  ((65 <=? n) && (n <=? 90) || (97 <=? n) && (n <=? 122)
   || (48 <=? n) && (n <=? 57) || (n =? 95) || (n =? 46) || (n =? 45))%N.

Fixpoint keep (p : ascii → bool) (s : string) : string :=
  match s with
  | "" => ""
  | String c s' => if p c then String c (keep p s') else keep p s'
  end.

Definition dot_underscore (c : ascii) : bool :=
  bool_decide (c = "."%char) || bool_decide (c = "_"%char).

(** werkzeug's [secure_filename] on a POSIX system. *)
Definition secure_filename (filename : string) : string :=
  let filename := replace_sep (to_ascii filename) in
  let joined := join_words false (strip filename) in
  rstrip dot_underscore (lstrip dot_underscore (keep filename_char joined)).

(** An entry of [request.files]. *)
Record file_storage : Type := {
  filename : string;
  content : string;
}.

Definition set_proofs (fs : gmap string string) (st : state) : state :=
  {| products := products st; orders := orders st;
     orders_seq := orders_seq st; proofs := fs |}.

(** [now] is [int(datetime.now().timestamp())] and [uuid_hex] is
    [uuid.uuid4().hex]. *)
Definition upload_file (s : session) (files : gmap string file_storage)
    (now : Z) (uuid_hex : string) (st : state) : result response * state :=
  match sess_user s with
  | None => (Ok unauthorized, st)
  | Some u =>
      match files !! "file" with
      | None => (Ok (jsonify 400 [("error", JStr "No file part")]), st)
      | Some file =>
          if decide (filename file = "")
          then (Ok (jsonify 400 [("error", JStr "No selected file")]), st)
          else if allowed_file (filename file) then
            let ext := lower (default "" (rsplit_dot (filename file) !! 1%nat)) in
            let unique_filename :=
              "proof_" +:+ uid u +:+ "_" +:+ Z_to_string now +:+ "_" +:+
              substring 0 8 uuid_hex +:+ "." +:+ ext in
            let filename := secure_filename unique_filename in
            let file_path := "proofs/" +:+ filename in
            (Ok (jsonify 200 [("success", JBool true);
                              ("url", JStr ("/static/proofs/" +:+ filename));
                              ("filename", JStr filename)]),
             set_proofs (<[file_path := content file]> (proofs st)) st)
          else (Ok (jsonify 400 [("error", JStr "File type not allowed")]), st)
      end
  end.

(** ** The admin routes *)

Definition is_admin (s : session) : bool := sess_is_admin s.

(** [json.loads(c)] under [try], with its replacement. *)
Definition loads_or (d : json) (c : option blob) : json :=
  match loads_cell c with
  | Ok j => j
  | Raise _ => d
  end.

Definition product_entry (row : product) : json :=
  JObj [("id", JStr (p_id row));
        ("name", JStr (p_name row));
        ("price", cell_json (p_price row));
        ("url", text_json (p_url row));
        ("options_count", from_option JInt JNull (p_options_count row));
        ("meta_json", loads_or (JObj []) (p_meta_json row));
        ("detail_json", loads_or (JObj []) (p_detail_json row))].

Definition admin_order_entry (row : order) : json :=
  JObj [("id", JInt (o_id row));
        ("order_ref", text_json (o_order_ref row));
        ("uid", JStr (o_uid row));
        ("email", text_json (o_email row));
        ("total_amount", text_json (o_total_amount row));
        ("status", text_json (o_status row));
        ("created_at", JStr (sql_datetime (o_created_at row)));
        ("items_json", loads_or (JArr []) (o_items_json row));
        ("shipping_json", loads_or (JObj []) (o_shipping_json row));
        ("transaction_id", text_json (o_transaction_id row))].

Definition admin_get_all (s : session) (st : state) : result response * state :=
  if negb (is_admin s) then (Ok unauthorized, st)
  else
    (Ok (jsonify 200
           [("products", JArr (product_entry <$> products st));
            ("orders",
             JArr (admin_order_entry <$> merge_sort newer_first (orders st)))]),
     st).

(** [data[k]] *)
Definition getitem (data : gmap string json) (k : string) : result json :=
  match data !! k with
  | Some v => Ok v
  | None => Raise (KeyError k)
  end.

Definition set_products (ps : list product) (st : state) : state :=
  {| products := ps; orders := orders st; orders_seq := orders_seq st;
     proofs := proofs st |}.

(** The UPDATE of [products]; [name] is declared NOT NULL. *)
Definition update_products (name : option string) (price : cell)
    (url : option string) (meta detail : blob) (id : option string)
    (ps : list product) : result (list product) :=
  match name with
  | None =>
      if existsb (λ p, sql_eq (Some (p_id p)) id) ps
      then Raise (IntegrityError "NOT NULL constraint failed: products.name")
      else Ok ps
  | Some name' =>
      Ok ((λ p, if sql_eq (Some (p_id p)) id
                then {| p_id := p_id p; p_name := name'; p_price := price;
                        p_url := url; p_options_count := p_options_count p;
                        p_meta_json := Some meta; p_detail_json := Some detail |}
                else p) <$> ps)
  end.

(** The body of the [try] of [admin_update_product]. *)
Definition try_update_product (data : gmap string json) (st : state)
    : result state :=
  meta ← getitem data "meta_json";
  detail ← getitem data "detail_json";
  name ← getitem data "name";
  price ← getitem data "price";
  url ← getitem data "url";
  id ← getitem data "id";
  v_name ← bind_param 0 name;
  v_price ← bind_param 1 price;
  v_url ← bind_param 2 url;
  v_id ← bind_param 5 id;
  ps ← update_products (text_affinity v_name) (real_affinity v_price)
         (text_affinity v_url) (json_dumps meta) (json_dumps detail)
         (text_affinity v_id) (products st);
  Ok (set_products ps st).

Definition admin_update_product (s : session) (data : gmap string json)
    (st : state) : result response * state :=
  if negb (is_admin s) then (Ok unauthorized, st)
  else
    match try_update_product data st with
    | Ok st' => (Ok (jsonify 200 [("success", JBool true)]), st')
    | Raise e => (Ok (jsonify 500 [("error", JStr (exn_str e))]), st)
    end.

(** The UPDATE of [orders]. *)
Definition update_orders (status total_amount transaction_id order_ref : option string)
    (os : list order) : list order :=
  (λ o, if sql_eq (o_order_ref o) order_ref
        then {| o_id := o_id o; o_order_ref := o_order_ref o; o_uid := o_uid o;
                o_email := o_email o; o_total_amount := total_amount;
                o_status := status; o_created_at := o_created_at o;
                o_items_json := o_items_json o;
                o_shipping_json := o_shipping_json o;
                o_transaction_id := transaction_id |}
        else o) <$> os.

(** The body of the [try] of [admin_update_order]. *)
Definition try_update_order (data : gmap string json) (st : state)
    : result state :=
  status ← getitem data "status";
  total_amount ← getitem data "total_amount";
  transaction_id ← getitem data "transaction_id";
  order_ref ← getitem data "order_ref";
  v_status ← bind_param 0 status;
  v_total ← bind_param 1 total_amount;
  v_tx ← bind_param 2 transaction_id;
  v_ref ← bind_param 3 order_ref;
  Ok (set_orders
        (update_orders (text_affinity v_status) (text_affinity v_total)
           (text_affinity v_tx) (text_affinity v_ref) (orders st)) st).

Definition admin_update_order (s : session) (data : gmap string json)
    (st : state) : result response * state :=
  if negb (is_admin s) then (Ok unauthorized, st)
  else
    match try_update_order data st with
    | Ok st' => (Ok (jsonify 200 [("success", JBool true)]), st')
    | Raise e => (Ok (jsonify 500 [("error", JStr (exn_str e))]), st)
    end.

(** The DELETE of [orders] by reference. *)
Definition delete_orders (order_ref : option string) (os : list order) : list order :=
  filter (λ o, sql_eq (o_order_ref o) order_ref = false) os.

(** No [try] here: a failure of the statement escapes the view. *)
Definition admin_delete_order (s : session) (data : gmap string json)
    (st : state) : result response * state :=
  if negb (is_admin s) then (Ok unauthorized, st)
  else
    let order_ref := default JNull (data !! "order_ref") in
    match bind_param 0 order_ref with
    | Ok v_ref =>
        (Ok (jsonify 200 [("success", JBool true)]),
         set_orders (delete_orders (text_affinity v_ref) (orders st)) st)
    | Raise e => (Raise e, st)
    end.

End views.

(** ** The product page *)

(** What a view that serves a page returns. *)
Inductive page : Type :=
  | Render (template : string) (context : list (string * json))
  | Redirect (location : string)
  | Abort (code : Z).

(** [cursor.fetchone()] *)
Definition fetchone {A} (rows : list A) : option A := head rows.

(** GET /product/<product_id>, the view [product] of the source. *)
Definition product_view (product_id : string) (st : state) : result page :=
  match fetchone (filter (λ p, p_id p = product_id) (products st)) with
  | None => Ok (Abort 404)
  | Some row =>
      product_data ← loads_cell (p_detail_json row);
      Ok (Render "product.html" [("product", product_data)])
  end.

(** ** The session routes *)

(** Python truthiness of a value of the body. *)
Definition py_truthy (j : json) : bool :=
  match j with
  | JNull => false
  | JBool b => b
  | JInt z => negb (z =? 0)
  | JReal q => negb (Qeq_bool q 0)
  | JStr s => negb (bool_decide (s = ""))
  | JArr l => if l is [] then false else true
  | JObj l => if l is [] then false else true
  end.

(** What [auth.verify_id_token] returns for a token it accepts: the claims,
    with the subject of the token under ['uid']. *)
Record decoded_token : Type := {
  tok_uid : string;
  tok_claims : gmap string json;
}.

Section login.

(** The identity provider: [None] stands for any exception it raises. *)
Variable verify_id_token : json → option decoded_token.

(** POST /api/login *)
Definition api_login (s : session) (data : gmap string json)
    : response * session :=
  let id_token := default JNull (data !! "idToken") in
  if negb (py_truthy id_token)
  then (jsonify 400 [("error", JStr "No token provided")], s)
  else
    match verify_id_token id_token with
    | Some token =>
        (jsonify 200 [("success", JBool true)],
         {| sess_user :=
              Some {| uid := tok_uid token;
                      email := default JNull (tok_claims token !! "email");
                      name := default (JStr "Collector") (tok_claims token !! "name") |};
            sess_is_admin := sess_is_admin s |})
    | None => (jsonify 401 [("error", JStr "Invalid token")], s)
    end.

End login.

(** GET /auth; [url_for('home')] is ["/"]. *)
Definition auth_page (s : session) : page :=
  match sess_user s with
  | Some _ => Redirect "/"
  | None => Render "auth.html" []
  end.

(** GET /logout *)
Definition logout (s : session) : page * session :=
  (Redirect "/", {| sess_user := None; sess_is_admin := sess_is_admin s |}).

(** POST /admin-login *)
Definition admin_login (s : session) (data : gmap string json)
    : response * session :=
  match data !! "password" with
  | Some (JStr "admin123") =>
      (jsonify 200 [("success", JBool true)],
       {| sess_user := sess_user s; sess_is_admin := true |})
  | _ => (jsonify 401 [("error", JStr "Wrong password")], s)
  end.

(** * The vocabulary of the properties *)

(** The search text and the sort mode of a request. *)
Definition search_of (args : gmap string string) : string :=
  strip (default "" (args !! "q")).
Definition sort_of (args : gmap string string) : string :=
  default "" (args !! "sort").

(** The sorted matching rows, before LIMIT and OFFSET. *)
Definition sorted_matching (args : gmap string string) (st : state) : list product :=
  order_by (sort_of args) (matching (search_of args) (products st)).

(** The rows of the page a request asks for. *)
Definition page_rows (args : gmap string string) (st : state) : list product :=
  limit_offset (page_limit args).2
    (((page_limit args).1 - 1) * (page_limit args).2) (sorted_matching args st).


(** The search as the specification words it: [q] occurs in [s], letters
    compared without regard to ASCII case. *)
Fixpoint iprefix (q s : string) : bool :=
  match q, s with
  | "", _ => true
  | String _ _, "" => false
  | String a q', String b s' =>
      bool_decide (sqlite_lower a = sqlite_lower b) && iprefix q' s'
  end.

Fixpoint icontains (q s : string) : bool :=
  iprefix q s || match s with
                 | "" => false
                 | String _ s' => icontains q s'
                 end.


(** An order of [u] that was never paid and is older than 24 hours. *)
Definition expired (u : string) (now : Z) (o : order) : Prop :=
  o_uid o = u ∧
  (o_status o = Some "pending_payment" ∨ o_status o = Some "Pending Verification") ∧
  o_created_at o < now - 24 * 3600.

Global Instance expired_dec u now o : Decision (expired u now o).
Proof. unfold expired. apply _. Defined.

(** Both blobs of the order are JSON, as [create_order] stores them. *)
Definition listable (o : order) : Prop :=
  ∃ items shipping,
    o_items_json o = Some (Valid items) ∧ o_shipping_json o = Some (Valid shipping).

(** No stored order has the reference [ref]. *)
Definition matches_none (ref : option string) (os : list order) : Prop :=
  ∀ o, o ∈ os → sql_eq (o_order_ref o) ref = false.

(** Every character of [s] satisfies [p]. *)
Fixpoint all_chars (p : ascii → bool) (s : string) : bool :=
  match s with
  | "" => true
  | String c s' => p c && all_chars p s'
  end.

(** The digits of [uuid.uuid4().hex]. *)
Definition hex_digit (c : ascii) : bool :=
  let n := code c in
  ((48 <=? n) && (n <=? 57) || (97 <=? n) && (n <=? 102))%N.

(** The name [upload_file] builds before it is sanitised. *)
Definition proof_name (u : user) (now : Z) (uuid_hex ext : string) : string :=
  "proof_" +:+ uid u +:+ "_" +:+ Z_to_string now +:+ "_" +:+
  substring 0 8 uuid_hex +:+ "." +:+ ext.

(** The extension [upload_file] takes from a file name. *)
Definition extension (f : string) : string :=
  lower (default "" (rsplit_dot f !! 1%nat)).

(** A field of a JSON object. *)
Definition jfield (k : string) (j : json) : option json :=
  match j with
  | JObj d => jget k d
  | _ => None
  end.


(** The row the UPDATE of [admin_update_product] makes of a row. *)
Definition edited (name : string) (price : cell) (url : option string)
    (meta detail : blob) (id : option string) (p : product) : product :=
  if sql_eq (Some (p_id p)) id
  then {| p_id := p_id p; p_name := name; p_price := price; p_url := url;
          p_options_count := p_options_count p;
          p_meta_json := Some meta; p_detail_json := Some detail |}
  else p.

(** * Sample data *)

(** A catalogue of three products. *)
Definition item (n : string) (price : cell) : product :=
  {| p_id := n; p_name := n; p_price := price; p_url := None;
     p_options_count := None; p_meta_json := Some (Valid (JStr n));
     p_detail_json := Some (Valid (JObj [])) |}.

Definition catalogue : state :=
  {| products := [item "Doll A" (CReal (3 # 1)); item "car" (CReal (1 # 2));
                  item "big doll" CNull];
     orders := []; orders_seq := 0; proofs := ∅ |}.

(** Query strings. *)
Definition second_page : gmap string string :=
  {[ "page" := "2"; "limit" := "1"; "sort" := "low-to-high" ]}.




Definition padded_search : gmap string string := {[ "q" := " doll" ]}.

(** Four orders at time 200000: two unpaid ones of ann, made 25 hours and
    1 hour before, an unpaid one of bob and a paid one of ann, both older
    than a day. *)
Definition placed (ref owner status : string) (at_time : Z) : order :=
  {| o_id := 0; o_order_ref := Some ref; o_uid := owner; o_email := None;
     o_total_amount := Some "10"; o_status := Some status;
     o_created_at := at_time; o_items_json := Some (Valid (JArr []));
     o_shipping_json := Some (Valid (JObj [])); o_transaction_id := None |}.

Definition ledger : state :=
  {| products := [];
     orders := [placed "R1" "ann" "pending_payment" (200000 - 25 * 3600);
                placed "R2" "bob" "pending_payment" (200000 - 30 * 3600);
                placed "R3" "ann" "Paid" (200000 - 48 * 3600);
                placed "R4" "ann" "pending_payment" (200000 - 1 * 3600)];
     orders_seq := 4; proofs := ∅ |}.

(** Sessions. *)
Definition ann : user := {| uid := "ann"; email := JNull; name := JStr "Ann" |}.
Definition ann_session : session := {| sess_user := Some ann; sess_is_admin := false |}.

Definition slash_user : user := {| uid := "a/b"; email := JNull; name := JNull |}.

Definition anonymous : session := {| sess_user := None; sess_is_admin := false |}.

Definition admin_session : session := {| sess_user := None; sess_is_admin := true |}.

(** Request bodies: an update of an order that is not stored, an order
    whose total is a list, which SQLite cannot bind, and an update without
    its status. *)
Definition update_missing : gmap string json :=
  {[ "status" := JStr "Shipped"; "total_amount" := JStr "12";
     "transaction_id" := JNull; "order_ref" := JStr "R9" ]}.

Definition bad_total : gmap string json :=
  {[ "orderRef" := JStr "R7"; "total" := JArr [JInt 1] ]}.

Definition no_status : gmap string json :=
  {[ "total_amount" := JStr "12"; "transaction_id" := JNull;
     "order_ref" := JStr "R1" ]}.

(** An uploaded file. *)
Definition scan : file_storage := {| filename := "scan.v2.PNG"; content := "bytes" |}.

Definition new_order : gmap string json :=
  {[ "orderRef" := JStr "R5"; "total" := JStr "49.99";
     "items" := JArr [JObj [("id", JStr "doll-1"); ("qty", JInt 2)]];
     "shipping" := JObj [("city", JStr "Berlin")] ]}.

Definition ship_r4 : gmap string json :=
  {[ "status" := JStr "Shipped"; "total_amount" := JStr "12";
     "transaction_id" := JStr "TX1"; "order_ref" := JStr "R4" ]}.

Definition delete_r2 : gmap string json := {[ "order_ref" := JStr "R2" ]}.

Definition edit_car : gmap string json :=
  {[ "id" := JStr "car"; "name" := JStr "Car"; "price" := JInt 2;
     "url" := JNull; "meta_json" := JStr "car";
     "detail_json" := JObj [("colour", JStr "red")] ]}.

Definition edit_ghost : gmap string json :=
  {[ "id" := JStr "ghost"; "name" := JNull; "price" := JInt 2;
     "url" := JNull; "meta_json" := JNull; "detail_json" := JNull ]}.

Definition broken_catalogue : state :=
  {| products := [{| p_id := "x"; p_name := "X"; p_price := CNull;
                     p_url := None; p_options_count := None;
                     p_meta_json := Some (Malformed "{oops");
                     p_detail_json := None |}];
     orders := []; orders_seq := 0; proofs := ∅ |}.


(** An identity provider that knows one token. *)
Definition one_token (j : json) : option decoded_token :=
  match j with
  | JStr "token-of-ann" => Some {| tok_uid := "ann"; tok_claims := ∅ |}
  | _ => None
  end.

(** * Properties *)

(** ** The monad and the sort orders *)


Lemma mapR_total {A B} (f : A → result B) l :
  Forall (λ a, ∃ b, f a = Ok b) l → ∃ bs, mapR f l = Ok bs.
Proof.
  induction 1 as [|a l [b Hb] _ [bs Hbs]]; simpl.
  - by eexists.
  - rewrite Hb. simpl. rewrite Hbs. simpl. by eexists.
Qed.

Global Instance cell_le_trans : Transitive cell_le.
Proof.
  intros [|p|s] [|q|t] [|r|u]; unfold cell_le; simpl; try done.
  - rewrite !Is_true_true, !Qle_bool_iff. apply Qle_trans.
  - intros H1 H2. by apply (transitivity (R := String.le) H1 H2).
Qed.

Global Instance cell_le_total : Total cell_le.
Proof.
  intros [|p|s] [|q|t]; unfold cell_le; simpl; auto.
  - rewrite !Is_true_true, !Qle_bool_iff.
    destruct (Qlt_le_dec p q) as [Hlt|Hle]; [left; by apply Qlt_le_weak|by right].
  - apply (total String.le).
Qed.

Global Instance price_le_trans : Transitive price_le.
Proof. intros a b c. unfold price_le. apply cell_le_trans. Qed.

Global Instance price_le_total : Total price_le.
Proof. intros a b. unfold price_le. apply cell_le_total. Qed.

Global Instance name_le_trans : Transitive name_le.
Proof. intros a b c. unfold name_le. apply (transitivity (R := String.le)). Qed.

Global Instance name_le_total : Total name_le.
Proof. intros a b. unfold name_le. apply (total String.le). Qed.

Global Instance newer_first_trans : Transitive newer_first.
Proof. intros a b c. unfold newer_first. lia. Qed.

Global Instance newer_first_total : Total newer_first.
Proof. intros a b. unfold newer_first. lia. Qed.

Global Instance flip_trans {A} (R : relation A) `{!Transitive R} :
  Transitive (flip R).
Proof. intros a b c Hab Hbc. unfold flip in *. by transitivity b. Qed.

Global Instance flip_total {A} (R : relation A) `{!Total R} : Total (flip R).
Proof. intros a b. unfold flip. destruct (total R a b); auto. Qed.

Lemma Forall_sublist {A} (P : A → Prop) l k :
  k `sublist_of` l → Forall P l → Forall P k.
Proof.
  intros Hkl. rewrite !Forall_forall. intros Hl x Hx.
  by apply Hl, (sublist_subseteq _ _ Hkl).
Qed.

Lemma StronglySorted_sublist {A} (R : relation A) l k :
  k `sublist_of` l → StronglySorted R l → StronglySorted R k.
Proof.
  induction 1 as [|x k l Hkl IH|x k l Hkl IH]; intros Hs.
  - constructor.
  - apply StronglySorted_inv in Hs as [Hs Hall]. constructor; [by apply IH|].
    by apply (Forall_sublist _ _ _ Hkl).
  - apply StronglySorted_inv in Hs as [Hs _]. by apply IH.
Qed.

Lemma limit_offset_sublist {A} limit offset (rows : list A) :
  limit_offset limit offset rows `sublist_of` rows.
Proof.
  unfold limit_offset. destruct (limit <? 0).
  - apply sublist_drop.
  - etrans; [apply sublist_take|apply sublist_drop].
Qed.


(** ** GET /api/products: the page that is served *)

Lemma order_by_perm sort_mode rows : order_by sort_mode rows ≡ₚ rows.
Proof.
  unfold order_by. repeat case_decide; try apply merge_sort_Permutation; done.
Qed.



Lemma bind_int_inv z z' : bind_int z = Ok z' → z' = z ∧ int64 z = true.
Proof. unfold bind_int. destruct (int64 z); [by intros [= <-]|done]. Qed.

(** What a response of the view says about the request and the table. *)
Lemma get_products_api_inv args st r :
  get_products_api args st = Ok r →
  ∃ decoded,
    let page := (page_limit args).1 in
    let limit := (page_limit args).2 in
    int64 limit = true ∧ int64 ((page - 1) * limit) = true ∧
    mapR (λ row, loads_cell (p_meta_json row))
      (limit_offset limit ((page - 1) * limit) (sorted_matching args st))
      = Ok decoded ∧
    r = jsonify 200
          [("total", JInt (Z.of_nat (length (matching (search_of args) (products st)))));
           ("page", JInt page);
           ("limit", JInt limit);
           ("count", JInt (Z.of_nat (length decoded)));
           ("products", JArr decoded)].
Proof.
  unfold get_products_api, select_products.
  fold (search_of args) (sort_of args).
  destruct (bind_int (page_limit args).2) as [l|e] eqn:Hl; simpl; [|done].
  destruct (bind_int (((page_limit args).1 - 1) * (page_limit args).2))
    as [o|e] eqn:Ho; simpl; [|done].
  apply bind_int_inv in Hl as [-> Hl]. apply bind_int_inv in Ho as [-> Ho].
  fold (sorted_matching args st).
  destruct (mapR _ _) as [ps|e] eqn:Hps; simpl; [|done].
  intros [= <-]. exists ps. done.
Qed.




(** C4: the page is a slice of the matching rows put in the order of the
    sort mode: by price upwards for low-to-high, so that the prices on the
    page never decrease, by price downwards for high-to-low, by name upwards
    for a-z and downwards for z-a; with any other sort mode, or none, it is
    a slice of the matching rows in the order of the table. *)
Theorem sort_modes args st r :
  get_products_api args st = Ok r →
  ∃ rows decoded,
    rows = limit_offset (page_limit args).2
             (((page_limit args).1 - 1) * (page_limit args).2)
             (sorted_matching args st) ∧
    mapR (λ row, loads_cell (p_meta_json row)) rows = Ok decoded ∧
    field "products" r = Some (JArr decoded) ∧
    sorted_matching args st ≡ₚ matching (search_of args) (products st) ∧
    (sort_of args = "low-to-high" →
       StronglySorted price_le (sorted_matching args st) ∧
       StronglySorted price_le rows) ∧
    (sort_of args = "high-to-low" →
       StronglySorted (flip price_le) (sorted_matching args st) ∧
       StronglySorted (flip price_le) rows) ∧
    (sort_of args = "a-z" →
       StronglySorted name_le (sorted_matching args st) ∧
       StronglySorted name_le rows) ∧
    (sort_of args = "z-a" →
       StronglySorted (flip name_le) (sorted_matching args st) ∧
       StronglySorted (flip name_le) rows) ∧
    (sort_of args ∉ ["low-to-high"; "high-to-low"; "a-z"; "z-a"] →
       sorted_matching args st = matching (search_of args) (products st)).
Proof.
  intros Hr. apply get_products_api_inv in Hr as (decoded & _ & _ & Hdec & ->).
  eexists _, decoded. split; [reflexivity|]. split; [exact Hdec|].
  split; [reflexivity|]. split; [apply order_by_perm|].
  assert (Hsub : ∀ R : relation product,
    StronglySorted R (sorted_matching args st) →
    StronglySorted R (sorted_matching args st) ∧
    StronglySorted R (limit_offset (page_limit args).2
       (((page_limit args).1 - 1) * (page_limit args).2)
       (sorted_matching args st))).
  { intros R HR. split; [done|].
    eapply StronglySorted_sublist; [apply limit_offset_sublist|done]. }
  unfold sorted_matching in *. unfold order_by in *.
  split; [|split; [|split; [|split]]]; intros Hmode.
  - apply Hsub. rewrite Hmode. simpl. apply (StronglySorted_merge_sort _).
  - apply Hsub. rewrite Hmode. simpl. apply (StronglySorted_merge_sort _).
  - apply Hsub. rewrite Hmode. simpl. apply (StronglySorted_merge_sort _).
  - apply Hsub. rewrite Hmode. simpl. apply (StronglySorted_merge_sort _).
  - repeat case_decide; try done; exfalso; apply Hmode; subst;
      rewrite ?elem_of_cons; auto 10.
Qed.

Lemma sort_modes_witness :
  ∃ r, get_products_api second_page catalogue = Ok r ∧
       field "products" r = Some (JArr [JStr "car"]).
Proof.
  assert (Hr : get_products_api second_page catalogue =
               Ok (jsonify 200 [("total", JInt 3); ("page", JInt 2);
                                ("limit", JInt 1); ("count", JInt 1);
                                ("products", JArr [JStr "car"])]))
    by (vm_compute; reflexivity).
  destruct (sort_modes second_page catalogue _ Hr) as (rows & decoded & _ & _ & Hf & _).
  eexists. split; [exact Hr|reflexivity].
Defined.

Example low_to_high_catalogue :
  get_products_api {[ "sort" := "low-to-high" ]} catalogue =
  Ok (jsonify 200 [("total", JInt 3); ("page", JInt 1); ("limit", JInt 20);
                   ("count", JInt 3);
                   ("products", JArr [JStr "big doll"; JStr "car"; JStr "Doll A"])]).
Proof. vm_compute. reflexivity. Qed.

(** ** GET /api/products: page and limit *)




(** ** GET /api/products: a negative limit *)



(** ** GET /api/products: the search *)









Example padded_search_response :
  get_products_api padded_search catalogue =
    Ok (jsonify 200 [("total", JInt 2); ("page", JInt 1); ("limit", JInt 20);
                     ("count", JInt 2);
                     ("products", JArr [JStr "Doll A"; JStr "big doll"])]).
Proof. vm_compute. reflexivity. Qed.


(** A search text with a pattern character of LIKE: ["d_ll"] finds "Doll A". *)
Example search_wildcard :
  page_rows {[ "q" := "d_ll" ]} catalogue =
    [item "Doll A" (CReal (3 # 1)); item "big doll" CNull] ∧
  icontains "d_ll" "Doll A" = false.
Proof. split; vm_compute; reflexivity. Qed.

(** ** GET /api/my-orders *)

Lemma sql_eq_Some a b : sql_eq a (Some b) = true ↔ a = Some b.
Proof.
  destruct a as [x|]; simpl; [|done].
  rewrite bool_decide_eq_true. split; congruence.
Qed.



Lemma try_update_order_inv real_to_text data st st' :
  try_update_order real_to_text data st = Ok st' →
  ∃ order_ref v_ref status total tx,
    data !! "order_ref" = Some order_ref ∧ bind_param 3 order_ref = Ok v_ref ∧
    st' = set_orders (update_orders status total tx
                        (text_affinity real_to_text v_ref) (orders st)) st.
Proof.
  unfold try_update_order, getitem.
  destruct (data !! "status") as [j1|]; simpl; [|done].
  destruct (data !! "total_amount") as [j2|]; simpl; [|done].
  destruct (data !! "transaction_id") as [j3|]; simpl; [|done].
  destruct (data !! "order_ref") as [j4|]; simpl; [|done].
  destruct (bind_param 0 j1) as [v1|]; simpl; [|done].
  destruct (bind_param 1 j2) as [v2|]; simpl; [|done].
  destruct (bind_param 2 j3) as [v3|]; simpl; [|done].
  destruct (bind_param 3 j4) as [v4|] eqn:B4; simpl; [|done].
  intros [= <-]. by eexists j4, v4, _, _, _.
Qed.

Lemma listable_entry o : listable o → ∃ j, order_entry o = Ok j.
Proof.
  intros (items & shipping & Hi & Hs). unfold order_entry.
  rewrite Hi, Hs. simpl. by eexists.
Qed.

(** The views keep the orders listable. *)
Lemma listable_kept (real_to_text : Q → string) (s : session)
    (data : gmap string json) (now : Z) (st : state) :
  Forall listable (orders st) →
  Forall listable (orders (create_order real_to_text s data now st).2) ∧
  Forall listable (orders (get_my_orders s now st).2) ∧
  Forall listable (orders (admin_update_order real_to_text s data st).2) ∧
  Forall listable (orders (admin_delete_order real_to_text s data st).2).
Proof.
  intros Hall. repeat split.
  - unfold create_order. destruct (sess_user s) as [u|]; [|done].
    destruct (try_create_order real_to_text u data now st) as [st'|e] eqn:Htry;
      [|done].
    unfold try_create_order in Htry.
    repeat match type of Htry with
           | context [bind_param ?n ?j] =>
               destruct (bind_param n j); simpl in Htry; [|done]
           end.
    unfold insert_order in Htry. destruct (existsb _ _); [done|].
    injection Htry as <-. simpl. apply Forall_app. split; [done|].
    repeat constructor. by eexists _, _.
  - unfold get_my_orders. destruct (sess_user s) as [u|]; [|done].
    assert (Forall listable (delete_stale (uid u) now (orders st)))
      by (eapply Forall_sublist; [apply sublist_filter|done]).
    by destruct (mapR _ _).
  - unfold admin_update_order. destruct (negb (is_admin s)); [done|].
    destruct (try_update_order real_to_text data st) as [st'|e] eqn:Htry; [|done].
    apply try_update_order_inv in Htry as (? & ? & ? & ? & ? & _ & _ & ->).
    simpl. unfold update_orders. apply Forall_fmap.
    eapply Forall_impl; [exact Hall|]. intros o Ho. simpl.
    by destruct (sql_eq _ _).
  - unfold admin_delete_order. destruct (negb (is_admin s)); [done|].
    destruct (bind_param 0 _); [|done]. simpl.
    eapply Forall_sublist; [apply sublist_filter|done].
Qed.


Example list_mine_ledger :
  (get_my_orders ann_session 200000 ledger).1 =
    Ok {| status_code := 200;
          body := JArr [JObj [("order_ref", JStr "R4"); ("total_amount", JStr "10");
                              ("status", JStr "pending_payment"); ("items", JArr []);
                              ("shipping", JObj []);
                              ("created_at", JStr "1970-01-03 06:33:20");
                              ("transaction_id", JNull)];
                        JObj [("order_ref", JStr "R3"); ("total_amount", JStr "10");
                              ("status", JStr "Paid"); ("items", JArr []);
                              ("shipping", JObj []);
                              ("created_at", JStr "1970-01-01 07:33:20");
                              ("transaction_id", JNull)]] |} ∧
  orders (get_my_orders ann_session 200000 ledger).2 =
    [placed "R2" "bob" "pending_payment" (200000 - 30 * 3600);
     placed "R3" "ann" "Paid" (200000 - 48 * 3600);
     placed "R4" "ann" "pending_payment" (200000 - 1 * 3600)].
Proof. split; vm_compute; reflexivity. Qed.


(** ** The gates *)

(** C7: without a signed-in user, list-mine, order creation and upload
    answer 401, and without the admin flag so does every admin route; the
    answer is the same whatever the state holds, and the state is left as it
    was. *)
Theorem unauthorized_requests (real_to_text : Q → string)
    (text_to_real : string → option Q) (nfkd_ascii : ascii → string)
    (s : session) (data : gmap string json) (files : gmap string file_storage)
    (now : Z) (uuid_hex : string) (st : state) :
  status_code unauthorized = 401 ∧
  (sess_user s = None →
   get_my_orders s now st = (Ok unauthorized, st) ∧
   create_order real_to_text s data now st = (Ok unauthorized, st) ∧
   upload_file nfkd_ascii s files now uuid_hex st = (Ok unauthorized, st)) ∧
  (sess_is_admin s = false →
   admin_get_all s st = (Ok unauthorized, st) ∧
   admin_update_product real_to_text text_to_real s data st = (Ok unauthorized, st) ∧
   admin_update_order real_to_text s data st = (Ok unauthorized, st) ∧
   admin_delete_order real_to_text s data st = (Ok unauthorized, st)).
Proof.
  split; [reflexivity|]. split.
  - intros Hs. unfold get_my_orders, create_order, upload_file. by rewrite Hs.
  - intros Hs.
    unfold admin_get_all, admin_update_product, admin_update_order,
      admin_delete_order, is_admin.
    by rewrite Hs.
Qed.

Lemma unauthorized_requests_witness :
  sess_user anonymous = None ∧ sess_is_admin anonymous = false ∧
  get_my_orders anonymous 200000 ledger = (Ok unauthorized, ledger) ∧
  admin_get_all anonymous ledger = (Ok unauthorized, ledger).
Proof.
  destruct (unauthorized_requests (λ _, "") (λ _, None) (λ _, "") anonymous
              ∅ ∅ 200000 "" ledger) as (_ & Huser & Hadmin).
  split; [reflexivity|]. split; [reflexivity|].
  split; [exact (proj1 (Huser eq_refl))|exact (proj1 (Hadmin eq_refl))].
Defined.

(** ** The admin changes of orders *)

Lemma set_orders_same st : set_orders (orders st) st = st.
Proof. by destruct st. Qed.

Lemma update_orders_none status total tx ref os :
  matches_none ref os → update_orders status total tx ref os = os.
Proof.
  intros Hnone. unfold update_orders.
  induction os as [|o os IH]; [done|]. simpl.
  rewrite (Hnone o) by by left. f_equal. apply IH.
  intros o' Ho'. apply Hnone. by right.
Qed.

Lemma delete_orders_none ref os :
  matches_none ref os → delete_orders ref os = os.
Proof.
  intros Hnone. unfold delete_orders.
  induction os as [|o os IH]; [done|].
  rewrite filter_cons_True by (apply Hnone; by left). f_equal. apply IH.
  intros o' Ho'. apply Hnone. by right.
Qed.

(** C8: for an admin, an update whose order_ref matches no stored order
    leaves the state as it was, and answers with success when its body
    carries the four fields as values SQLite can bind; a delete by a
    reference that matches no stored order answers with success and leaves
    the state as it was. *)
Theorem admin_absent_ref_noop (real_to_text : Q → string) (s : session)
    (data : gmap string json) (st : state) :
  sess_is_admin s = true →
  ((∀ order_ref v_ref,
      data !! "order_ref" = Some order_ref → bind_param 3 order_ref = Ok v_ref →
      matches_none (text_affinity real_to_text v_ref) (orders st)) →
   (admin_update_order real_to_text s data st).2 = st) ∧
  (∀ status total_amount transaction_id order_ref v_status v_total v_tx v_ref,
     data !! "status" = Some status →
     data !! "total_amount" = Some total_amount →
     data !! "transaction_id" = Some transaction_id →
     data !! "order_ref" = Some order_ref →
     bind_param 0 status = Ok v_status →
     bind_param 1 total_amount = Ok v_total →
     bind_param 2 transaction_id = Ok v_tx →
     bind_param 3 order_ref = Ok v_ref →
     matches_none (text_affinity real_to_text v_ref) (orders st) →
     admin_update_order real_to_text s data st =
       (Ok (jsonify 200 [("success", JBool true)]), st)) ∧
  (∀ v_ref,
     bind_param 0 (default JNull (data !! "order_ref")) = Ok v_ref →
     matches_none (text_affinity real_to_text v_ref) (orders st) →
     admin_delete_order real_to_text s data st =
       (Ok (jsonify 200 [("success", JBool true)]), st)).
Proof.
  intros Hadmin. split; [|split].
  - intros Hnone. unfold admin_update_order, is_admin. rewrite Hadmin. simpl.
    destruct (try_update_order real_to_text data st) as [st'|e] eqn:Htry; [|done].
    apply try_update_order_inv in Htry
      as (order_ref & v_ref & status & total & tx & Hd & Hb & ->).
    simpl. by rewrite update_orders_none, set_orders_same by eauto.
  - intros status total_amount transaction_id order_ref v_status v_total v_tx v_ref
      H1 H2 H3 H4 B1 B2 B3 B4 Hnone.
    unfold admin_update_order, is_admin, try_update_order, getitem.
    rewrite Hadmin, H1, H2, H3, H4. simpl.
    rewrite B1. simpl. rewrite B2. simpl. rewrite B3. simpl. rewrite B4. simpl.
    by rewrite update_orders_none, set_orders_same.
  - intros v_ref B Hnone. unfold admin_delete_order, is_admin.
    rewrite Hadmin, B. simpl. by rewrite delete_orders_none, set_orders_same.
Qed.

Lemma admin_absent_ref_noop_witness :
  sess_is_admin admin_session = true ∧
  matches_none (Some "R9") (orders ledger) ∧
  admin_update_order (λ _, "") admin_session update_missing ledger =
    (Ok (jsonify 200 [("success", JBool true)]), ledger) ∧
  admin_delete_order (λ _, "") admin_session update_missing ledger =
    (Ok (jsonify 200 [("success", JBool true)]), ledger).
Proof.
  assert (Hnone : matches_none (Some "R9") (orders ledger)).
  { intros o Ho. simpl in Ho. rewrite !elem_of_cons, elem_of_nil in Ho.
    destruct Ho as [->|[->|[->|[->|[]]]]]; vm_compute; reflexivity. }
  destruct (admin_absent_ref_noop (λ _, "") admin_session update_missing ledger
              eq_refl) as (_ & Hupdate & Hdelete).
  split; [reflexivity|]. split; [exact Hnone|]. split.
  - apply (Hupdate (JStr "Shipped") (JStr "12") JNull (JStr "R9")
             (VText "Shipped") (VText "12") VNull (VText "R9"));
      try (vm_compute; reflexivity). exact Hnone.
  - apply (Hdelete (VText "R9")); [vm_compute; reflexivity|exact Hnone].
Defined.

(** ** Failures of the changes *)

(** C9, as the code has it: when the body of the [try] raises, order
    creation answers 500 with the fixed text "Failed to create order", and
    the admin updates of a product and of an order answer 500 with the
    message of the exception; the state is left as it was. *)
Theorem mutation_failures (real_to_text : Q → string)
    (text_to_real : string → option Q) (s : session) (data : gmap string json)
    (now : Z) (st : state) (e : exn) :
  (∀ u, sess_user s = Some u →
     try_create_order real_to_text u data now st = Raise e →
     create_order real_to_text s data now st =
       (Ok (jsonify 500 [("error", JStr "Failed to create order")]), st)) ∧
  (sess_is_admin s = true →
   try_update_product real_to_text text_to_real data st = Raise e →
   admin_update_product real_to_text text_to_real s data st =
     (Ok (jsonify 500 [("error", JStr (exn_str e))]), st)) ∧
  (sess_is_admin s = true →
   try_update_order real_to_text data st = Raise e →
   admin_update_order real_to_text s data st =
     (Ok (jsonify 500 [("error", JStr (exn_str e))]), st)).
Proof.
  split; [|split].
  - intros u Hu He. unfold create_order. by rewrite Hu, He.
  - intros Hadmin He. unfold admin_update_product, is_admin.
    by rewrite Hadmin, He.
  - intros Hadmin He. unfold admin_update_order, is_admin.
    by rewrite Hadmin, He.
Qed.

Lemma mutation_failures_witness :
  sess_is_admin admin_session = true ∧
  try_update_order (λ _, "") no_status ledger = Raise (KeyError "status") ∧
  admin_update_order (λ _, "") admin_session no_status ledger =
    (Ok (jsonify 500 [("error", JStr "'status'")]), ledger).
Proof.
  assert (He : try_update_order (λ _, "") no_status ledger = Raise (KeyError "status"))
    by (vm_compute; reflexivity).
  destruct (mutation_failures (λ _, "") (λ _, None) admin_session no_status 0
              ledger (KeyError "status")) as (_ & _ & Hupdate).
  split; [reflexivity|]. split; [exact He|]. exact (Hupdate eq_refl He).
Defined.

Example create_order_bad_total :
  try_create_order (λ _, "") ann bad_total 200000 ledger = Raise (InterfaceError 3) ∧
  create_order (λ _, "") ann_session bad_total 200000 ledger =
    (Ok (jsonify 500 [("error", JStr "Failed to create order")]), ledger).
Proof. split; vm_compute; reflexivity. Qed.

Example create_order_duplicate :
  try_create_order (λ _, "") ann {[ "orderRef" := JStr "R1" ]} 200000 ledger =
    Raise (IntegrityError "UNIQUE constraint failed: orders.order_ref").
Proof. vm_compute. reflexivity. Qed.

(** C9 as stated fails: an order whose total is a list makes the INSERT
    raise, and the answer of order creation does not carry the message of
    that exception. *)
Lemma create_order_message_counterexample :
  ¬ (∀ (real_to_text : Q → string) (s : session) (u : user)
       (data : gmap string json) (now : Z) (st : state) (e : exn),
       sess_user s = Some u →
       try_create_order real_to_text u data now st = Raise e →
       (create_order real_to_text s data now st).1 =
         Ok (jsonify 500 [("error", JStr (exn_str e))])).
Proof.
  intros H.
  specialize (H (λ _, "") ann_session ann bad_total 200000 ledger
                (InterfaceError 3) eq_refl).
  assert (He : try_create_order (λ _, "") ann bad_total 200000 ledger =
               Raise (InterfaceError 3)) by (vm_compute; reflexivity).
  specialize (H He). vm_compute in H. discriminate.
Qed.

(** ** POST /api/upload *)

Lemma all_chars_app p s t :
  all_chars p (s +:+ t) = all_chars p s && all_chars p t.
Proof.
  induction s as [|c s IH]; [done|].
  change (String c s +:+ t) with (String c (s +:+ t)).
  simpl. by rewrite IH, andb_assoc.
Qed.

Lemma all_chars_impl (p q : ascii → bool) s :
  (∀ c, p c = true → q c = true) → all_chars p s = true → all_chars q s = true.
Proof.
  intros Hpq. induction s as [|c s IH]; [done|]. simpl.
  rewrite !andb_true_iff. intros [Hc Hs]. auto.
Qed.

Lemma all_chars_substring p n m s :
  all_chars p s = true → all_chars p (substring n m s) = true.
Proof.
  revert n m. induction s as [|c s IH]; intros n m Hs.
  - by destruct n, m.
  - simpl in Hs. apply andb_true_iff in Hs as [Hc Hs].
    destruct n as [|n]; [destruct m as [|m]|]; simpl; [done| |by apply IH].
    rewrite Hc. by apply IH.
Qed.

Lemma filename_char_plain c :
  filename_char c = true →
  (code c <? 128)%N = true ∧ c ≠ "/"%char ∧ py_isspace c = false.
Proof.
  destruct c as [[] [] [] [] [] [] [] []]; vm_compute; intros H;
    try discriminate H; repeat split; discriminate.
Qed.

Lemma lstrip_head drop c s : drop c = false → lstrip drop (String c s) = String c s.
Proof. intros H. simpl. by rewrite H. Qed.

Lemma rstrip_app drop s t :
  t ≠ "" → rstrip drop t = t → rstrip drop (s +:+ t) = s +:+ t.
Proof.
  intros Hne Ht. induction s as [|c s IH]; [done|].
  change (String c s +:+ t) with (String c (s +:+ t)).
  simpl. rewrite IH. destruct (s +:+ t) eqn:E; [|done].
  destruct s; [|done]. simpl in E. by subst.
Qed.

Lemma keep_all p s : all_chars p s = true → keep p s = s.
Proof.
  induction s as [|c s IH]; [done|]. simpl.
  intros [Hc Hs]%andb_true_iff. by rewrite Hc, IH.
Qed.

Section sanitising.

Variable nfkd_ascii : ascii → string.

Lemma to_ascii_plain s :
  all_chars filename_char s = true → to_ascii nfkd_ascii s = s.
Proof.
  induction s as [|c s IH]; [done|]. simpl.
  intros [Hc Hs]%andb_true_iff.
  destruct (filename_char_plain c Hc) as (-> & _ & _). by rewrite IH.
Qed.

Lemma replace_sep_plain s :
  all_chars filename_char s = true → replace_sep s = s.
Proof.
  induction s as [|c s IH]; [done|]. simpl.
  intros [Hc Hs]%andb_true_iff.
  destruct (filename_char_plain c Hc) as (_ & Hsep & _).
  by rewrite decide_False, IH.
Qed.

Lemma rstrip_plain drop s :
  all_chars (λ c, negb (drop c)) s = true → rstrip drop s = s.
Proof.
  induction s as [|c s IH]; [done|]. simpl.
  intros [Hc Hs]%andb_true_iff. rewrite IH by done.
  apply negb_true_iff in Hc. rewrite Hc. by destruct s.
Qed.

Lemma strip_plain s : all_chars filename_char s = true → strip s = s.
Proof.
  intros Hs. unfold strip.
  assert (Hn : all_chars (λ c, negb (py_isspace c)) s = true).
  { eapply all_chars_impl; [|exact Hs]. intros c Hc.
    destruct (filename_char_plain c Hc) as (_ & _ & ->). done. }
  destruct s as [|c s]; [done|].
  simpl in Hn. apply andb_true_iff in Hn as [Hc Hn].
  apply negb_true_iff in Hc. rewrite lstrip_head by done.
  apply rstrip_plain. simpl. by rewrite Hc, Hn.
Qed.

Lemma join_words_plain s :
  all_chars filename_char s = true → join_words false s = s.
Proof.
  induction s as [|c s IH]; [done|]. simpl.
  intros [Hc Hs]%andb_true_iff.
  destruct (filename_char_plain c Hc) as (_ & _ & ->). by rewrite IH.
Qed.

(** A name of plain characters that neither starts nor ends with a dot or
    an underscore is left as it is. *)
Lemma secure_filename_plain name p t :
  name = p +:+ t →
  all_chars filename_char name = true →
  lstrip dot_underscore name = name → t ≠ "" → rstrip dot_underscore t = t →
  secure_filename nfkd_ascii name = name.
Proof.
  intros Hname Hall Hl Hne Ht. unfold secure_filename.
  rewrite to_ascii_plain, replace_sep_plain, strip_plain, join_words_plain,
    keep_all by done.
  rewrite Hl, Hname. by apply rstrip_app.
Qed.

End sanitising.

Lemma uint_chars d :
  all_chars filename_char (NilEmpty.string_of_uint d) = true.
Proof. induction d; simpl; done. Qed.

Lemma Z_to_string_chars z : all_chars filename_char (Z_to_string z) = true.
Proof.
  unfold Z_to_string, NilZero.string_of_int, NilZero.string_of_uint.
  destruct (Z.to_int z) as [d|d]; destruct d; simpl; try done; apply uint_chars.
Qed.

Lemma allowed_extension e :
  e ∈ ALLOWED_EXTENSIONS → e = "png" ∨ e = "jpg" ∨ e = "jpeg" ∨ e = "pdf".
Proof.
  unfold ALLOWED_EXTENSIONS. rewrite !elem_of_union, !elem_of_singleton. tauto.
Qed.

Lemma rsplit_dot_plain s : has_dot s = false → rsplit_dot s = [s].
Proof.
  induction s as [|c s IH]; [done|]. simpl.
  destruct (decide (c = "."%char)); [done|]. intros Hs. by rewrite IH.
Qed.

Lemma rsplit_dot_app stem ext :
  has_dot ext = false → rsplit_dot (stem +:+ "." +:+ ext) = [stem; ext].
Proof.
  intros Hext. induction stem as [|c stem IH].
  - change ("" +:+ "." +:+ ext) with (String "." ext).
    simpl. by rewrite rsplit_dot_plain.
  - change (String c stem +:+ "." +:+ ext) with (String c (stem +:+ "." +:+ ext)).
    simpl. by rewrite IH.
Qed.

Lemma has_dot_split s :
  has_dot s = true →
  ∃ stem ext, s = stem +:+ "." +:+ ext ∧ has_dot ext = false.
Proof.
  induction s as [|c s IH]; [done|]. simpl. intros Hs.
  destruct (has_dot s) eqn:Hd.
  - destruct IH as (stem & ext & -> & Hext); [done|].
    by exists (String c stem), ext.
  - destruct (decide (c = "."%char)) as [->|]; [|done]. by exists "", s.
Qed.

Lemma has_dot_app stem ext : has_dot (stem +:+ "." +:+ ext) = true.
Proof.
  induction stem as [|c stem IH]; [done|].
  change (String c stem +:+ "." +:+ ext) with (String c (stem +:+ "." +:+ ext)).
  simpl. by destruct (decide (c = "."%char)).
Qed.

(** A file name is allowed when the text after its last dot, in lower case,
    is one of the four extensions. *)
Lemma allowed_file_spec f :
  allowed_file f = true ↔
  ∃ stem ext, f = stem +:+ "." +:+ ext ∧ has_dot ext = false ∧
              lower ext ∈ ALLOWED_EXTENSIONS.
Proof.
  unfold allowed_file. rewrite andb_true_iff, bool_decide_eq_true. split.
  - intros [Hd He]. destruct (has_dot_split f Hd) as (stem & ext & -> & Hext).
    rewrite rsplit_dot_app in He by done. by exists stem, ext.
  - intros (stem & ext & -> & Hext & He).
    by rewrite has_dot_app, rsplit_dot_app.
Qed.

Lemma hex_digit_plain c : hex_digit c = true → filename_char c = true.
Proof.
  destruct c as [[] [] [] [] [] [] [] []]; vm_compute; intros H;
    try discriminate H; reflexivity.
Qed.

Lemma substring_length n s :
  (n ≤ String.length s)%nat → String.length (substring 0 n s) = n.
Proof.
  revert s. induction n as [|n IH]; intros s Hn; [by destruct s|].
  destruct s as [|c s]; simpl in *; [lia|]. rewrite IH; [done|lia].
Qed.

Lemma append_assoc (s t u : string) : (s +:+ t) +:+ u = s +:+ (t +:+ u).
Proof.
  induction s as [|c s IH]; [done|].
  change (String c ((s +:+ t) +:+ u) = String c (s +:+ (t +:+ u))).
  by rewrite IH.
Qed.

Lemma proof_name_plain nfkd_ascii u now uuid_hex ext :
  all_chars filename_char (uid u) = true →
  all_chars filename_char uuid_hex = true →
  ext ∈ ALLOWED_EXTENSIONS →
  secure_filename nfkd_ascii (proof_name u now uuid_hex ext) =
    proof_name u now uuid_hex ext.
Proof.
  intros Hu Hh He.
  assert (Hext : all_chars filename_char ext = true ∧ ext ≠ "" ∧
                 rstrip dot_underscore ext = ext).
  { destruct (allowed_extension ext He) as [-> | [-> | [-> | ->]]]; done. }
  destruct Hext as (Hc & Hne & Hr).
  apply (secure_filename_plain nfkd_ascii _
           ("proof_" +:+ uid u +:+ "_" +:+ Z_to_string now +:+ "_" +:+
            substring 0 8 uuid_hex +:+ ".") ext); try done.
  - unfold proof_name. by rewrite !append_assoc.
  - unfold proof_name.
    rewrite !all_chars_app, Hu, Hc, Z_to_string_chars, all_chars_substring by done.
    done.
Qed.

(** C6, as the code has it: for a signed-in user the upload answers 400
    when there is no file part, when the file name is empty, and when the
    text after the last dot of the file name, in lower case, is not one of
    png, jpg, jpeg, pdf.  Otherwise it answers 200: the file is stored under
    the sanitised form of proof_{uid}_{seconds}_{first 8 characters of the
    uuid}.{extension in lower case}, and that name and the URL
    /static/proofs/ followed by it are returned.  The uuid being 32 hex
    digits, its part of the name is 8 hex digits, and the sanitised form is
    the name itself when the uid holds only letters, digits, [_], [.] and
    [-]. *)
Theorem upload_contract (nfkd_ascii : ascii → string) (s : session) (u : user)
    (files : gmap string file_storage) (now : Z) (uuid_hex : string) (st : state) :
  sess_user s = Some u →
  (files !! "file" = None →
   upload_file nfkd_ascii s files now uuid_hex st =
     (Ok (jsonify 400 [("error", JStr "No file part")]), st)) ∧
  (∀ file, files !! "file" = Some file →
     (filename file = "" →
      upload_file nfkd_ascii s files now uuid_hex st =
        (Ok (jsonify 400 [("error", JStr "No selected file")]), st)) ∧
     (filename file ≠ "" → extension (filename file) ∉ ALLOWED_EXTENSIONS →
      upload_file nfkd_ascii s files now uuid_hex st =
        (Ok (jsonify 400 [("error", JStr "File type not allowed")]), st)) ∧
     (filename file ≠ "" → has_dot (filename file) = false →
      upload_file nfkd_ascii s files now uuid_hex st =
        (Ok (jsonify 400 [("error", JStr "File type not allowed")]), st)) ∧
     (filename file ≠ "" → has_dot (filename file) = true →
      extension (filename file) ∈ ALLOWED_EXTENSIONS →
      ∃ stored,
        stored = secure_filename nfkd_ascii
                   (proof_name u now uuid_hex (extension (filename file))) ∧
        upload_file nfkd_ascii s files now uuid_hex st =
          (Ok (jsonify 200 [("success", JBool true);
                            ("url", JStr ("/static/proofs/" +:+ stored));
                            ("filename", JStr stored)]),
           set_proofs (<["proofs/" +:+ stored := content file]> (proofs st)) st) ∧
        (all_chars hex_digit uuid_hex = true → String.length uuid_hex = 32%nat →
         all_chars hex_digit (substring 0 8 uuid_hex) = true ∧
         String.length (substring 0 8 uuid_hex) = 8%nat ∧
         (all_chars filename_char (uid u) = true →
          stored = proof_name u now uuid_hex (extension (filename file)))))).
Proof.
  intros Hu. unfold upload_file. rewrite Hu. split.
  - by intros ->.
  - intros file ->. unfold allowed_file. fold (extension (filename file)).
    split; [|split; [|split]].
    + intros Hf. by rewrite decide_True.
    + intros Hf He. rewrite decide_False by done.
      by rewrite bool_decide_eq_false_2, andb_false_r.
    + intros Hf Hd. rewrite decide_False by done. by rewrite Hd.
    + intros Hf Hd He. rewrite decide_False by done.
      rewrite Hd, bool_decide_eq_true_2 by done. simpl.
      eexists. split; [reflexivity|]. split; [reflexivity|].
      intros Hhex Hlen. split; [by apply all_chars_substring|].
      split; [apply substring_length; lia|].
      intros Hsafe. apply proof_name_plain; [done| |done].
      eapply all_chars_impl; [apply hex_digit_plain|done].
Qed.

Lemma upload_contract_witness :
  sess_user ann_session = Some ann ∧
  ({[ "file" := scan ]} : gmap string file_storage) !! "file" = Some scan ∧
  filename scan ≠ "" ∧ has_dot (filename scan) = true ∧
  extension (filename scan) ∈ ALLOWED_EXTENSIONS ∧
  all_chars filename_char (uid ann) = true ∧
  all_chars hex_digit "9f86d081884c7d659a2feaa0c55ad015" = true ∧
  String.length "9f86d081884c7d659a2feaa0c55ad015" = 32%nat ∧
  upload_file (λ _, "") ann_session {[ "file" := scan ]} 1700000000
      "9f86d081884c7d659a2feaa0c55ad015" ledger =
    (Ok (jsonify 200 [("success", JBool true);
                      ("url", JStr "/static/proofs/proof_ann_1700000000_9f86d081.png");
                      ("filename", JStr "proof_ann_1700000000_9f86d081.png")]),
     set_proofs (<["proofs/proof_ann_1700000000_9f86d081.png" := "bytes"]> ∅) ledger).
Proof.
  assert (H1 : ({[ "file" := scan ]} : gmap string file_storage) !! "file" = Some scan)
    by (vm_compute; reflexivity).
  assert (H2 : filename scan ≠ "") by discriminate.
  assert (H3 : has_dot (filename scan) = true) by reflexivity.
  assert (H4 : extension (filename scan) ∈ ALLOWED_EXTENSIONS).
  { replace (extension (filename scan)) with "png" by (vm_compute; reflexivity).
    unfold ALLOWED_EXTENSIONS. rewrite !elem_of_union, !elem_of_singleton. auto. }
  assert (H5 : all_chars filename_char (uid ann) = true) by reflexivity.
  assert (H6 : all_chars hex_digit "9f86d081884c7d659a2feaa0c55ad015" = true)
    by reflexivity.
  assert (H7 : String.length "9f86d081884c7d659a2feaa0c55ad015" = 32%nat)
    by reflexivity.
  destruct (upload_contract (λ _, "") ann_session ann {[ "file" := scan ]}
              1700000000 "9f86d081884c7d659a2feaa0c55ad015" ledger eq_refl)
    as [_ Hfile].
  destruct (Hfile scan H1) as (_ & _ & _ & Hok).
  destruct (Hok H2 H3 H4) as (stored & _ & Hr & Hname).
  destruct (Hname H6 H7) as (_ & _ & Hplain). specialize (Hplain H5).
  repeat (split; [assumption || reflexivity|]).
  rewrite Hr, Hplain. vm_compute. reflexivity.
Defined.

Example upload_slash_user :
  (upload_file (λ _, "") {| sess_user := Some slash_user; sess_is_admin := false |}
     {[ "file" := scan ]} 1700000000 "9f86d081884c7d659a2feaa0c55ad015" ledger).1 =
  Ok (jsonify 200 [("success", JBool true);
                   ("url", JStr "/static/proofs/proof_a_b_1700000000_9f86d081.png");
                   ("filename", JStr "proof_a_b_1700000000_9f86d081.png")]).
Proof. vm_compute. reflexivity. Qed.

(** C6 as stated fails: for the uid [a/b] the name that is stored and
    returned is proof_a_b_..., not proof_a/b_.... *)
Lemma upload_name_counterexample :
  ¬ (∀ (nfkd_ascii : ascii → string) (s : session) (u : user)
       (files : gmap string file_storage) (file : file_storage) (now : Z)
       (uuid_hex : string) (st : state),
       sess_user s = Some u → files !! "file" = Some file →
       filename file ≠ "" → allowed_file (filename file) = true →
       ∃ ext r,
         (upload_file nfkd_ascii s files now uuid_hex st).1 = Ok r ∧
         field "filename" r = Some (JStr (proof_name u now uuid_hex ext))).
Proof.
  intros H.
  destruct (H (λ _, "") {| sess_user := Some slash_user; sess_is_admin := false |}
              slash_user {[ "file" := scan ]} scan 1700000000
              "9f86d081884c7d659a2feaa0c55ad015" ledger)
    as (ext & r & Hr & Hname); try (vm_compute; reflexivity); [discriminate|].
  rewrite upload_slash_user in Hr. injection Hr as <-.
  vm_compute in Hname. discriminate.
Qed.

(** * Further properties of the views *)

(** ** Orders: creation and listing *)

Lemma mapR_elem {A B} (f : A → result B) l bs a :
  mapR f l = Ok bs → a ∈ l → ∃ b, f a = Ok b ∧ b ∈ bs.
Proof.
  revert bs. induction l as [|x l IH]; intros bs; simpl.
  - intros _ Ha. by apply elem_of_nil in Ha.
  - destruct (f x) as [b|e] eqn:Hfx; simpl; [|done].
    destruct (mapR f l) as [bs'|e]; simpl; [|done].
    intros [= <-] [->|Ha]%elem_of_cons.
    + exists b. split; [done|by left].
    + destruct (IH bs' eq_refl Ha) as (b' & Hb' & Hin).
      exists b'. split; [done|by right].
Qed.

(** What a successful INSERT of [create_order] leaves behind. *)
Lemma try_create_order_inv real_to_text u data now st st' :
  try_create_order real_to_text u data now st = Ok st' →
  ∃ v_ref v_email v_total v_status v_tx,
    bind_param 0 (default JNull (data !! "orderRef")) = Ok v_ref ∧
    bind_param 4 (default (JStr "pending_payment") (data !! "status")) = Ok v_status ∧
    existsb (λ o, sql_eq (o_order_ref o) (text_affinity real_to_text v_ref))
      (orders st) = false ∧
    st' = {| products := products st;
             orders := orders st ++
               [{| o_id := orders_seq st + 1;
                   o_order_ref := text_affinity real_to_text v_ref;
                   o_uid := uid u;
                   o_email := text_affinity real_to_text v_email;
                   o_total_amount := text_affinity real_to_text v_total;
                   o_status := text_affinity real_to_text v_status;
                   o_created_at := now;
                   o_items_json := Some (Valid (default (JArr []) (data !! "items")));
                   o_shipping_json :=
                     Some (Valid (default (JObj []) (data !! "shipping")));
                   o_transaction_id := text_affinity real_to_text v_tx |}];
             orders_seq := orders_seq st + 1;
             proofs := proofs st |}.
Proof.
  unfold try_create_order.
  destruct (bind_param 0 _) as [v_ref|] eqn:B0; simpl; [|done].
  destruct (bind_param 2 _) as [v_email|]; simpl; [|done].
  destruct (bind_param 3 _) as [v_total|]; simpl; [|done].
  destruct (bind_param 4 _) as [v_status|] eqn:B4; simpl; [|done].
  destruct (bind_param 7 _) as [v_tx|]; simpl; [|done].
  unfold insert_order. simpl.
  destruct (existsb _ _) eqn:Hex; [done|]. intros [= <-].
  by exists v_ref, v_email, v_total, v_status, v_tx.
Qed.

Lemma create_order_ok_inv real_to_text s u data now st r st' :
  sess_user s = Some u →
  create_order real_to_text s data now st = (Ok r, st') → status_code r = 200 →
  try_create_order real_to_text u data now st = Ok st' ∧
  r = jsonify 200 [("success", JBool true);
                   ("order_ref", default JNull (data !! "orderRef"))].
Proof.
  intros Hu. unfold create_order. rewrite Hu.
  destruct (try_create_order real_to_text u data now st) as [st1|e].
  - by intros [= <- <-].
  - by intros [= <- <-].
Qed.

(** X1: on success [create_order] appends one row and changes nothing else:
    the row belongs to the signed-in user whatever the body says, is stamped
    with the current time, holds the items and the shipping address of the
    body (or an empty list and an empty object), and is pending_payment when
    the body names no status; the answer repeats the reference of the body. *)
Theorem create_order_appends (real_to_text : Q → string) (s : session) (u : user)
    (data : gmap string json) (now : Z) (st : state) (r : response) (st' : state) :
  sess_user s = Some u →
  create_order real_to_text s data now st = (Ok r, st') → status_code r = 200 →
  ∃ o,
    orders st' = (orders st ++ [o])%list ∧
    o_uid o = uid u ∧ o_created_at o = now ∧
    o_items_json o = Some (json_dumps (default (JArr []) (data !! "items"))) ∧
    o_shipping_json o = Some (json_dumps (default (JObj []) (data !! "shipping"))) ∧
    (data !! "status" = None → o_status o = Some "pending_payment") ∧
    (∀ ref, data !! "orderRef" = Some (JStr ref) → o_order_ref o = Some ref) ∧
    products st' = products st ∧ proofs st' = proofs st ∧
    field "order_ref" r = Some (default JNull (data !! "orderRef")).
Proof.
  intros Hu Hr H200.
  destruct (create_order_ok_inv _ _ _ _ _ _ _ _ Hu Hr H200) as [Htry ->].
  apply try_create_order_inv in Htry
    as (v_ref & v_email & v_total & v_status & v_tx & B0 & B4 & _ & ->).
  eexists. split; [reflexivity|]. simpl. repeat split.
  - intros Hs. rewrite Hs in B4. simpl in B4. by injection B4 as <-.
  - intros ref Href. rewrite Href in B0. simpl in B0. by injection B0 as <-.
Qed.

Lemma get_my_orders_ok s u now st :
  sess_user s = Some u → Forall listable (orders st) →
  ∃ results,
    mapR order_entry (select_mine (uid u) (delete_stale (uid u) now (orders st)))
      = Ok results ∧
    get_my_orders s now st =
      (Ok {| status_code := 200; body := JArr results |},
       set_orders (delete_stale (uid u) now (orders st)) st).
Proof.
  intros Hu Hall. unfold get_my_orders. rewrite Hu. simpl.
  destruct (mapR_total order_entry
              (select_mine (uid u) (delete_stale (uid u) now (orders st))))
    as [results Hres].
  - rewrite Forall_forall in *. intros o Ho. apply listable_entry, Hall.
    unfold select_mine in Ho. rewrite merge_sort_Permutation in Ho.
    apply list_elem_of_filter in Ho as [_ Ho].
    apply list_elem_of_filter in Ho as [_ Ho]. done.
  - exists results. by rewrite Hres.
Qed.

(** X2: an order that was created is listed with what was sent: when the
    stored orders are listable and list-mine is called less than 24 hours
    after the creation, the answer has an entry with the reference, the
    items and the shipping address of the body. *)
Theorem create_then_list (real_to_text : Q → string) (s : session) (u : user)
    (data : gmap string json) (ref : string) (now now' : Z)
    (st : state) (r : response) (st' : state) :
  sess_user s = Some u → Forall listable (orders st) →
  data !! "orderRef" = Some (JStr ref) →
  create_order real_to_text s data now st = (Ok r, st') → status_code r = 200 →
  now' - 86400 ≤ now →
  ∃ results entry,
    (get_my_orders s now' st').1 = Ok {| status_code := 200; body := JArr results |} ∧
    entry ∈ results ∧
    jfield "order_ref" entry = Some (JStr ref) ∧
    jfield "items" entry = Some (default (JArr []) (data !! "items")) ∧
    jfield "shipping" entry = Some (default (JObj []) (data !! "shipping")).
Proof.
  intros Hu Hall Href Hr H200 Htime.
  destruct (create_order_ok_inv _ _ _ _ _ _ _ _ Hu Hr H200) as [Htry ->].
  apply try_create_order_inv in Htry
    as (v_ref & v_email & v_total & v_status & v_tx & B0 & B4 & _ & ->).
  rewrite Href in B0. simpl in B0. injection B0 as <-.
  match goal with
  | |- context [(orders st ++ [?row])%list] => set (o := row)
  end.
  match goal with
  | |- context [get_my_orders s now' ?x] => set (st1 := x)
  end.
  assert (Hall1 : Forall listable (orders st1)).
  { simpl. apply Forall_app. split; [done|]. repeat constructor. by eexists _, _. }
  destruct (get_my_orders_ok s u now' st1 Hu Hall1) as (results & Hres & Hget).
  assert (Ho : o ∈ select_mine (uid u) (delete_stale (uid u) now' (orders st1))).
  { unfold select_mine. rewrite merge_sort_Permutation.
    apply list_elem_of_filter. split; [done|].
    apply list_elem_of_filter. split.
    - unfold stale. simpl. apply andb_false_iff. right. apply Z.ltb_ge. lia.
    - simpl. apply elem_of_app. right. by left. }
  destruct (mapR_elem _ _ _ _ Hres Ho) as (entry & Hentry & Hin).
  exists results, entry. rewrite Hget. split; [done|]. split; [done|].
  unfold order_entry in Hentry. simpl in Hentry. by injection Hentry as <-.
Qed.

Lemma create_order_appends_witness :
  sess_user ann_session = Some ann ∧
  ∃ r st' o,
    create_order (λ _, "") ann_session new_order 200000 ledger = (Ok r, st') ∧
    status_code r = 200 ∧
    orders st' = (orders ledger ++ [o])%list ∧ o_uid o = uid ann ∧
    o_status o = Some "pending_payment".
Proof.
  split; [reflexivity|].
  destruct (create_order (λ _, "") ann_session new_order 200000 ledger)
    as [[r|e] st'] eqn:E; [|vm_compute in E; discriminate].
  assert (H200 : status_code r = 200)
    by (vm_compute in E; injection E as <- _; reflexivity).
  destruct (create_order_appends (λ _, "") ann_session ann new_order 200000
              ledger r st' eq_refl E H200)
    as (o & Ho & Hu & _ & _ & _ & Hs & _).
  exists r, st', o. repeat split; try assumption. apply Hs. reflexivity.
Defined.

Lemma create_then_list_witness :
  sess_user ann_session = Some ann ∧ Forall listable (orders ledger) ∧
  new_order !! "orderRef" = Some (JStr "R5") ∧ 200100 - 86400 ≤ 200000 ∧
  ∃ r st' results entry,
    create_order (λ _, "") ann_session new_order 200000 ledger = (Ok r, st') ∧
    status_code r = 200 ∧
    (get_my_orders ann_session 200100 st').1 =
      Ok {| status_code := 200; body := JArr results |} ∧
    entry ∈ results ∧
    jfield "items" entry = Some (JArr [JObj [("id", JStr "doll-1"); ("qty", JInt 2)]]).
Proof.
  assert (Hall : Forall listable (orders ledger))
    by (repeat constructor; by eexists _, _).
  assert (Href : new_order !! "orderRef" = Some (JStr "R5"))
    by (vm_compute; reflexivity).
  assert (Htime : 200100 - 86400 ≤ 200000) by lia.
  split; [reflexivity|]. split; [exact Hall|]. split; [exact Href|].
  split; [exact Htime|].
  destruct (create_order (λ _, "") ann_session new_order 200000 ledger)
    as [[r|e] st'] eqn:E; [|vm_compute in E; discriminate].
  assert (H200 : status_code r = 200)
    by (vm_compute in E; injection E as <- _; reflexivity).
  destruct (create_then_list (λ _, "") ann_session ann new_order "R5" 200000
              200100 ledger r st' eq_refl Hall Href E H200 Htime)
    as (results & entry & Hget & Hin & _ & Hitems & _).
  exists r, st', results, entry. repeat split; try assumption.
Defined.








Lemma filter_filter_weaker {A} (P Q : A → Prop) `{!∀ x, Decision (P x)}
    `{!∀ x, Decision (Q x)} (l : list A) :
  (∀ x, Q x → P x) → filter P (filter Q l) = filter Q l.
Proof.
  intros HQP. induction l as [|x l IH]; [done|].
  rewrite (filter_cons Q). destruct (decide (Q x)) as [Hq|Hq]; [|done].
  rewrite filter_cons_True by auto. by rewrite IH.
Qed.

Lemma delete_stale_again u now now' os :
  now' ≤ now →
  delete_stale u now' (delete_stale u now os) = delete_stale u now os.
Proof.
  intros Hle. unfold delete_stale. apply filter_filter_weaker.
  intros o Ho. unfold stale in *.
  apply andb_false_iff in Ho as [Ho|Ho]; apply andb_false_iff; [by left|right].
  apply Z.ltb_ge in Ho. apply Z.ltb_ge. lia.
Qed.

(** X5: listing twice sweeps once: a second list-mine, at the same or an
    earlier time, deletes nothing further, and at the same time it gives the
    same answer. *)
Theorem list_mine_idempotent (s : session) (now now' : Z) (st : state) :
  now' ≤ now →
  (get_my_orders s now' (get_my_orders s now st).2).2 = (get_my_orders s now st).2 ∧
  get_my_orders s now (get_my_orders s now st).2 = get_my_orders s now st.
Proof.
  intros Hle. unfold get_my_orders. destruct (sess_user s) as [u|]; [|done].
  simpl.
  destruct (mapR order_entry
              (select_mine (uid u) (delete_stale (uid u) now (orders st))))
    as [results|e] eqn:Hres; simpl.
  - rewrite !delete_stale_again by lia. rewrite Hres. split; [|done].
    by destruct (mapR _ _).
  - rewrite !delete_stale_again by lia. rewrite Hres. split; [|done].
    by destruct (mapR _ _).
Qed.

Lemma list_mine_idempotent_witness :
  199000 ≤ 200000 ∧
  (get_my_orders ann_session 199000 (get_my_orders ann_session 200000 ledger).2).2
    = (get_my_orders ann_session 200000 ledger).2.
Proof.
  assert (H : 199000 ≤ 200000) by lia.
  split; [exact H|].
  exact (proj1 (list_mine_idempotent ann_session 200000 199000 ledger H)).
Defined.

(** ** Orders: the admin changes *)

(** X6: an admin update writes the status, the total and the transaction id of
    the body into every order with the given reference and into no other;
    the order keeps its reference, its owner, its time, its items and its
    address, and no order is added or removed. *)
Theorem admin_update_order_effect (real_to_text : Q → string) (s : session)
    (data : gmap string json) (status total tx ref : string) (st : state) :
  sess_is_admin s = true →
  data !! "status" = Some (JStr status) →
  data !! "total_amount" = Some (JStr total) →
  data !! "transaction_id" = Some (JStr tx) →
  data !! "order_ref" = Some (JStr ref) →
  ∃ st',
    admin_update_order real_to_text s data st =
      (Ok (jsonify 200 [("success", JBool true)]), st') ∧
    products st' = products st ∧ proofs st' = proofs st ∧
    Forall2 (λ o o',
               (o_order_ref o = Some ref →
                o' = {| o_id := o_id o; o_order_ref := o_order_ref o;
                        o_uid := o_uid o; o_email := o_email o;
                        o_total_amount := Some total; o_status := Some status;
                        o_created_at := o_created_at o;
                        o_items_json := o_items_json o;
                        o_shipping_json := o_shipping_json o;
                        o_transaction_id := Some tx |}) ∧
               (o_order_ref o ≠ Some ref → o' = o))
      (orders st) (orders st').
Proof.
  intros Hadmin H1 H2 H3 H4.
  unfold admin_update_order, is_admin, try_update_order, getitem.
  rewrite Hadmin, H1, H2, H3, H4. simpl. eexists. split; [reflexivity|].
  simpl. split; [done|]. split; [done|].
  unfold update_orders. apply Forall2_fmap_r, Forall_Forall2_diag.
  apply Forall_forall. intros o _. simpl.
  split.
  - intros Href. by rewrite (proj2 (sql_eq_Some _ _) Href).
  - intros Hne. destruct (sql_eq (o_order_ref o) (Some ref)) eqn:Heq; [|done].
    by apply sql_eq_Some in Heq.
Qed.

Lemma admin_update_order_effect_witness :
  sess_is_admin admin_session = true ∧
  ship_r4 !! "status" = Some (JStr "Shipped") ∧
  ship_r4 !! "total_amount" = Some (JStr "12") ∧
  ship_r4 !! "transaction_id" = Some (JStr "TX1") ∧
  ship_r4 !! "order_ref" = Some (JStr "R4") ∧
  ∃ st', admin_update_order (λ _, "") admin_session ship_r4 ledger =
           (Ok (jsonify 200 [("success", JBool true)]), st') ∧
         products st' = products ledger.
Proof.
  assert (H1 : ship_r4 !! "status" = Some (JStr "Shipped")) by (vm_compute; reflexivity).
  assert (H2 : ship_r4 !! "total_amount" = Some (JStr "12")) by (vm_compute; reflexivity).
  assert (H3 : ship_r4 !! "transaction_id" = Some (JStr "TX1")) by (vm_compute; reflexivity).
  assert (H4 : ship_r4 !! "order_ref" = Some (JStr "R4")) by (vm_compute; reflexivity).
  destruct (admin_update_order_effect (λ _, "") admin_session ship_r4 "Shipped"
              "12" "TX1" "R4" ledger eq_refl H1 H2 H3 H4) as (st' & Hr & Hp & _).
  repeat (split; [assumption || reflexivity|]). exists st'. split; assumption.
Defined.

(** X7: an admin delete by a text reference removes exactly the orders with
    that reference, leaving the others in their order; without a reference,
    or with null, it removes nothing, also not the orders whose reference is
    NULL; with a list or an object as reference the statement fails and the
    exception leaves the view, nothing being changed. *)
Theorem admin_delete_order_effect (real_to_text : Q → string) (s : session)
    (data : gmap string json) (st : state) :
  sess_is_admin s = true →
  (∀ ref, data !! "order_ref" = Some (JStr ref) →
     admin_delete_order real_to_text s data st =
       (Ok (jsonify 200 [("success", JBool true)]),
        set_orders (filter (λ o, o_order_ref o ≠ Some ref) (orders st)) st)) ∧
  (data !! "order_ref" = None ∨ data !! "order_ref" = Some JNull →
   admin_delete_order real_to_text s data st =
     (Ok (jsonify 200 [("success", JBool true)]), st)) ∧
  (∀ j, data !! "order_ref" = Some j →
     (∃ l, j = JArr l) ∨ (∃ l, j = JObj l) →
     admin_delete_order real_to_text s data st = (Raise (InterfaceError 0), st)).
Proof.
  intros Hadmin. unfold admin_delete_order, is_admin. rewrite Hadmin. simpl.
  split; [|split].
  - intros ref ->. simpl. do 2 f_equal. unfold delete_orders.
    apply list_filter_iff. intros o. rewrite <- sql_eq_Some.
    by destruct (sql_eq _ _).
  - intros Hnone.
    assert (default JNull (data !! "order_ref") = JNull) as ->
      by (by destruct Hnone as [-> | ->]).
    simpl. rewrite delete_orders_none, set_orders_same; [done|].
    intros o _. by destruct (o_order_ref o).
  - intros j -> [[l ->]|[l ->]]; done.
Qed.

Lemma admin_delete_order_effect_witness :
  sess_is_admin admin_session = true ∧
  delete_r2 !! "order_ref" = Some (JStr "R2") ∧
  orders (admin_delete_order (λ _, "") admin_session delete_r2 ledger).2 =
    [placed "R1" "ann" "pending_payment" (200000 - 25 * 3600);
     placed "R3" "ann" "Paid" (200000 - 48 * 3600);
     placed "R4" "ann" "pending_payment" (200000 - 1 * 3600)].
Proof.
  assert (H : delete_r2 !! "order_ref" = Some (JStr "R2")) by (vm_compute; reflexivity).
  destruct (admin_delete_order_effect (λ _, "") admin_session delete_r2 ledger
              eq_refl) as (Hdel & _ & _).
  split; [reflexivity|]. split; [exact H|].
  rewrite (Hdel "R2" H). vm_compute. reflexivity.
Defined.

(** ** Products: the page and the admin change *)

Lemma head_filter_fmap_id (f : product → product) (i : string) ps :
  (∀ p, p_id (f p) = p_id p) →
  head (filter (λ p, p_id p = i) (f <$> ps)) =
  f <$> head (filter (λ p, p_id p = i) ps).
Proof.
  intros Hf. induction ps as [|p ps IH]; [done|].
  rewrite fmap_cons, !filter_cons, Hf.
  destruct (decide (p_id p = i)); [done|apply IH].
Qed.

(** X8: the product page answers 404 exactly when no product has the id;
    otherwise it shows the detail blob of the first product with that id, and
    the view fails when that blob is NULL or is not JSON. *)
Theorem product_view_cases (product_id : string) (st : state) :
  (product_view product_id st = Ok (Abort 404) ↔
   ∀ p, p ∈ products st → p_id p ≠ product_id) ∧
  (∀ before p after,
     products st = (before ++ p :: after)%list →
     (∀ p', p' ∈ before → p_id p' ≠ product_id) → p_id p = product_id →
     product_view product_id st =
       match p_detail_json p with
       | Some (Valid detail) => Ok (Render "product.html" [("product", detail)])
       | Some (Malformed _) => Raise JSONDecodeError
       | None => Raise TypeError
       end).
Proof.
  unfold product_view, fetchone. split.
  - destruct (head _) as [row|] eqn:Hhead.
    + split.
      * intros Hr. by destruct (loads_cell (p_detail_json row)).
      * intros Hnone. apply head_Some_elem_of in Hhead.
        apply list_elem_of_filter in Hhead as [Hid Hin]. by apply Hnone in Hin.
    + split; [|done]. intros _ p Hin Hid. apply head_None in Hhead.
      exact (filter_nil_not_elem_of _ _ p Hhead Hid Hin).
  - intros before p after -> Hbefore Hid.
    rewrite filter_app, filter_cons_True by done.
    replace (filter (λ p0, p_id p0 = product_id) before) with (@nil product).
    + simpl. unfold loads_cell. by destruct (p_detail_json p) as [[]|].
    + symmetry. induction before as [|x before IH]; [done|].
      rewrite filter_cons_False by (apply Hbefore; by left).
      apply IH. intros p' Hp'. apply Hbefore. by right.
Qed.

Lemma product_view_cases_witness :
  products catalogue =
    ([item "Doll A" (CReal (3 # 1))] ++
     item "car" (CReal (1 # 2)) :: [item "big doll" CNull])%list ∧
  (∀ p', p' ∈ [item "Doll A" (CReal (3 # 1))] → p_id p' ≠ "car") ∧
  p_id (item "car" (CReal (1 # 2))) = "car" ∧
  product_view "car" catalogue = Ok (Render "product.html" [("product", JObj [])]).
Proof.
  assert (H : ∀ p', p' ∈ [item "Doll A" (CReal (3 # 1))] → p_id p' ≠ "car").
  { intros p' ->%list_elem_of_singleton. discriminate. }
  split; [reflexivity|]. split; [exact H|]. split; [reflexivity|].
  exact (proj2 (product_view_cases "car" catalogue)
           [item "Doll A" (CReal (3 # 1))] (item "car" (CReal (1 # 2)))
           [item "big doll" CNull] eq_refl H eq_refl).
Defined.

Lemma update_products_ok name price url meta detail id ps :
  update_products (Some name) price url meta detail id ps =
  Ok (edited name price url meta detail id <$> ps).
Proof. reflexivity. Qed.

Lemma edited_id name price url meta detail id p :
  p_id (edited name price url meta detail id p) = p_id p.
Proof. unfold edited. by destruct (sql_eq _ _). Qed.

Lemma edited_none name price url meta detail id (ps : list product) :
  (∀ p, p ∈ ps → p_id p ≠ id) →
  edited name price url meta detail (Some id) <$> ps = ps.
Proof.
  intros Hnone. induction ps as [|p ps IH]; [done|].
  rewrite fmap_cons, IH by (intros p' Hp'; apply Hnone; by right).
  f_equal. unfold edited. simpl.
  rewrite bool_decide_eq_false_2; [done|].
  intros [= Heq]. by apply (Hnone p); [left|].
Qed.

Lemma set_products_same st : set_products (products st) st = st.
Proof. by destruct st. Qed.

Lemma try_update_product_bound real_to_text text_to_real data st
    name price url id meta detail v_name v_price v_url v_id :
  data !! "meta_json" = Some meta → data !! "detail_json" = Some detail →
  data !! "name" = Some name → data !! "price" = Some price →
  data !! "url" = Some url → data !! "id" = Some id →
  bind_param 0 name = Ok v_name → bind_param 1 price = Ok v_price →
  bind_param 2 url = Ok v_url → bind_param 5 id = Ok v_id →
  try_update_product real_to_text text_to_real data st =
    (ps ← update_products (text_affinity real_to_text v_name)
            (real_affinity text_to_real v_price)
            (text_affinity real_to_text v_url) (json_dumps meta)
            (json_dumps detail) (text_affinity real_to_text v_id) (products st);
     Ok (set_products ps st)).
Proof.
  intros Hm Hd Hn Hp Hu Hi Bn Bp Bu Bi. unfold try_update_product, getitem.
  rewrite Hm, Hd, Hn, Hp, Hu, Hi. simpl.
  rewrite Bn. simpl. rewrite Bp. simpl. rewrite Bu. simpl. by rewrite Bi.
Qed.

(** X9: an admin update of a product is seen on its page: after an update with
    text name and id and a price and a url SQLite can bind, the page of a
    product with that id shows the new detail, the pages of the other ids
    answer as before, and the orders and the uploads are as they were. *)
Theorem update_then_view (real_to_text : Q → string)
    (text_to_real : string → option Q) (s : session) (data : gmap string json)
    (id name : string) (price url meta detail : json) (v_price v_url : sqlval)
    (st : state) :
  sess_is_admin s = true →
  data !! "meta_json" = Some meta → data !! "detail_json" = Some detail →
  data !! "name" = Some (JStr name) → data !! "price" = Some price →
  data !! "url" = Some url → data !! "id" = Some (JStr id) →
  bind_param 1 price = Ok v_price → bind_param 2 url = Ok v_url →
  ∃ st',
    admin_update_product real_to_text text_to_real s data st =
      (Ok (jsonify 200 [("success", JBool true)]), st') ∧
    ((∃ p, p ∈ products st ∧ p_id p = id) →
     product_view id st' = Ok (Render "product.html" [("product", detail)])) ∧
    (∀ id', id' ≠ id → product_view id' st' = product_view id' st) ∧
    orders st' = orders st ∧ proofs st' = proofs st.
Proof.
  intros Hadmin Hm Hd Hn Hp Hu Hi Bp Bu.
  set (f := edited name (real_affinity text_to_real v_price)
              (text_affinity real_to_text v_url) (json_dumps meta)
              (json_dumps detail) (Some id)).
  exists (set_products (f <$> products st) st).
  assert (Hf : ∀ p, p_id (f p) = p_id p) by (intros p; apply edited_id).
  split; [|split; [|split; [|done]]].
  - unfold admin_update_product, is_admin. rewrite Hadmin. simpl.
    by rewrite (try_update_product_bound real_to_text text_to_real data st
                  (JStr name) price url (JStr id) meta detail (VText name)
                  v_price v_url (VText id)).
  - intros (p & Hin & Hid). unfold product_view, fetchone. simpl.
    rewrite (head_filter_fmap_id f id _ Hf).
    destruct (head (filter (λ p0, p_id p0 = id) (products st))) as [row|] eqn:Hh.
    + apply head_Some_elem_of, list_elem_of_filter in Hh as [Hrow _].
      simpl. unfold f, edited. rewrite Hrow. simpl.
      by rewrite bool_decide_eq_true_2.
    + apply head_None in Hh.
      destruct (filter_nil_not_elem_of _ _ p Hh Hid Hin).
  - intros id' Hne. unfold product_view, fetchone. simpl.
    rewrite (head_filter_fmap_id f id' _ Hf).
    destruct (head (filter (λ p0, p_id p0 = id') (products st))) as [row|] eqn:Hh;
      [|done].
    apply head_Some_elem_of, list_elem_of_filter in Hh as [Hrow _].
    simpl. unfold f, edited. rewrite Hrow. simpl.
    by rewrite bool_decide_eq_false_2.
Qed.

Lemma update_then_view_witness :
  sess_is_admin admin_session = true ∧
  (∃ p, p ∈ products catalogue ∧ p_id p = "car") ∧
  ∃ st',
    admin_update_product (λ _, "") (λ _, None) admin_session edit_car catalogue =
      (Ok (jsonify 200 [("success", JBool true)]), st') ∧
    product_view "car" st' =
      Ok (Render "product.html" [("product", JObj [("colour", JStr "red")])]).
Proof.
  assert (Hex : ∃ p, p ∈ products catalogue ∧ p_id p = "car").
  { exists (item "car" (CReal (1 # 2))). split; [simpl; right; left|reflexivity]. }
  destruct (update_then_view (λ _, "") (λ _, None) admin_session edit_car "car"
              "Car" (JInt 2) JNull (JStr "car") (JObj [("colour", JStr "red")])
              (VInt 2) VNull catalogue eq_refl)
    as (st' & Hr & Hview & _); try (vm_compute; reflexivity).
  split; [reflexivity|]. split; [exact Hex|]. exists st'. split; [exact Hr|].
  exact (Hview Hex).
Defined.

(** X10: an admin update of a product that is not stored changes nothing and
    answers with success, also when the name is null; with a null name and a
    stored id the NOT NULL constraint fails, the answer is 500 with the
    message of the database and nothing is changed. *)
Theorem admin_update_product_edges (real_to_text : Q → string)
    (text_to_real : string → option Q) (s : session) (data : gmap string json)
    (id : string) (name price url meta detail : json)
    (v_name v_price v_url : sqlval) (st : state) :
  sess_is_admin s = true →
  data !! "meta_json" = Some meta → data !! "detail_json" = Some detail →
  data !! "name" = Some name → data !! "price" = Some price →
  data !! "url" = Some url → data !! "id" = Some (JStr id) →
  bind_param 0 name = Ok v_name → bind_param 1 price = Ok v_price →
  bind_param 2 url = Ok v_url →
  ((∀ p, p ∈ products st → p_id p ≠ id) →
   admin_update_product real_to_text text_to_real s data st =
     (Ok (jsonify 200 [("success", JBool true)]), st)) ∧
  (name = JNull → (∃ p, p ∈ products st ∧ p_id p = id) →
   admin_update_product real_to_text text_to_real s data st =
     (Ok (jsonify 500
            [("error", JStr "NOT NULL constraint failed: products.name")]), st)).
Proof.
  intros Hadmin Hm Hd Hn Hp Hu Hi Bn Bp Bu.
  unfold admin_update_product, is_admin. rewrite Hadmin. simpl.
  rewrite (try_update_product_bound real_to_text text_to_real data st
             name price url (JStr id) meta detail v_name v_price v_url (VText id))
    by done.
  cbn [text_affinity]. split.
  - intros Hnone.
    assert (Hex : existsb (λ p, sql_eq (Some (p_id p)) (Some id)) (products st)
                  = false).
    { apply not_true_is_false. intros Hex. apply existsb_exists in Hex
        as (p & Hin & Heq). apply list_elem_of_In in Hin.
      simpl in Heq. apply bool_decide_eq_true in Heq.
      apply (Hnone p Hin). congruence. }
    destruct (text_affinity real_to_text v_name) as [name'|].
    + rewrite update_products_ok. simpl.
      by rewrite edited_none, set_products_same.
    + unfold update_products. rewrite Hex. simpl. by rewrite set_products_same.
  - intros -> (p & Hin & Hid). simpl in Bn. injection Bn as <-.
    unfold update_products. cbn [text_affinity].
    replace (existsb _ _) with true; [done|]. symmetry.
    apply existsb_exists. exists p. split; [by apply list_elem_of_In|].
    simpl. apply bool_decide_eq_true. congruence.
Qed.

Lemma admin_update_product_edges_witness :
  sess_is_admin admin_session = true ∧
  (∀ p, p ∈ products catalogue → p_id p ≠ "ghost") ∧
  admin_update_product (λ _, "") (λ _, None) admin_session edit_ghost catalogue =
    (Ok (jsonify 200 [("success", JBool true)]), catalogue).
Proof.
  assert (Hnone : ∀ p, p ∈ products catalogue → p_id p ≠ "ghost").
  { intros p Hp. simpl in Hp. rewrite !elem_of_cons, elem_of_nil in Hp.
    destruct Hp as [-> | [-> | [-> | []]]]; discriminate. }
  destruct (admin_update_product_edges (λ _, "") (λ _, None) admin_session
              edit_ghost "ghost" JNull (JInt 2) JNull JNull JNull VNull (VInt 2)
              VNull catalogue eq_refl) as [Hghost _];
    try (vm_compute; reflexivity).
  split; [reflexivity|]. split; [exact Hnone|]. exact (Hghost Hnone).
Defined.

Lemma update_products_ids name price url meta detail id ps ps' :
  update_products name price url meta detail id ps = Ok ps' →
  p_id <$> ps' = p_id <$> ps ∧
  p_options_count <$> ps' = p_options_count <$> ps.
Proof.
  unfold update_products. destruct name as [name|].
  - intros [= <-]. rewrite <- !list_fmap_compose.
    split; apply list_fmap_ext; intros i p _; unfold compose; cbn beta;
      (destruct id as [y|]; [destruct (bool_decide (p_id p = y))|]; done).
  - destruct (existsb _ _); [done|]. by intros [= <-].
Qed.

Lemma try_update_product_inv real_to_text text_to_real data st st' :
  try_update_product real_to_text text_to_real data st = Ok st' →
  ∃ name price url meta detail id ps',
    update_products name price url meta detail id (products st) = Ok ps' ∧
    st' = set_products ps' st.
Proof.
  unfold try_update_product.
  repeat match goal with
         | |- context [getitem ?d ?k] => destruct (getitem d k); simpl; [|done]
         end.
  repeat match goal with
         | |- context [bind_param ?n ?j] =>
             destruct (bind_param n j); simpl; [|done]
         end.
  destruct (update_products _ _ _ _ _ _ _) as [ps'|] eqn:Hup; simpl; [|done].
  intros [= <-]. by eexists _, _, _, _, _, _, ps'.
Qed.

(** X11: each view writes to its own table only: the order views leave the
    products and the uploads alone, the upload leaves both tables alone, and
    the product update leaves the orders and the uploads alone and neither
    adds nor removes a product nor changes an options count. *)
Theorem views_keep_other_tables (real_to_text : Q → string)
    (text_to_real : string → option Q) (nfkd_ascii : ascii → string)
    (s : session) (data : gmap string json) (files : gmap string file_storage)
    (now : Z) (uuid_hex : string) (st : state) :
  (let st' := (create_order real_to_text s data now st).2 in
   products st' = products st ∧ proofs st' = proofs st) ∧
  (let st' := (get_my_orders s now st).2 in
   products st' = products st ∧ proofs st' = proofs st ∧
   orders_seq st' = orders_seq st) ∧
  (let st' := (upload_file nfkd_ascii s files now uuid_hex st).2 in
   products st' = products st ∧ orders st' = orders st ∧
   orders_seq st' = orders_seq st) ∧
  (let st' := (admin_update_product real_to_text text_to_real s data st).2 in
   orders st' = orders st ∧ proofs st' = proofs st ∧
   p_id <$> products st' = p_id <$> products st ∧
   p_options_count <$> products st' = p_options_count <$> products st) ∧
  (let st' := (admin_update_order real_to_text s data st).2 in
   products st' = products st ∧ proofs st' = proofs st ∧
   length (orders st') = length (orders st)) ∧
  (let st' := (admin_delete_order real_to_text s data st).2 in
   products st' = products st ∧ proofs st' = proofs st) ∧
  (admin_get_all s st).2 = st.
Proof.
  cbv zeta. split; [|split; [|split; [|split; [|split; [|split]]]]].
  - unfold create_order. destruct (sess_user s) as [u|]; [|by split].
    destruct (try_create_order real_to_text u data now st) as [st'|e] eqn:Htry;
      [|by split].
    apply try_create_order_inv in Htry
      as (v1 & v2 & v3 & v4 & v5 & _ & _ & _ & ->).
    split; reflexivity.
  - unfold get_my_orders. destruct (sess_user s) as [u|]; [|by repeat split].
    destruct (mapR _ _); repeat split; reflexivity.
  - unfold upload_file. destruct (sess_user s) as [u|]; [|by repeat split].
    destruct (files !! "file") as [file|]; [|by repeat split].
    destruct (decide (filename file = "")); [by repeat split|].
    destruct (allowed_file (filename file)); repeat split; reflexivity.
  - unfold admin_update_product. destruct (negb (is_admin s)); [by repeat split|].
    destruct (try_update_product real_to_text text_to_real data st)
      as [st'|e] eqn:Htry; [|by repeat split].
    apply try_update_product_inv in Htry
      as (n & pr & u & m & d & i & ps' & Hup & ->).
    apply update_products_ids in Hup as [Hids Hopts].
    split; [reflexivity|]. split; [reflexivity|]. split; assumption.
  - unfold admin_update_order. destruct (negb (is_admin s)); [by repeat split|].
    destruct (try_update_order real_to_text data st) as [st'|e] eqn:Htry;
      [|by repeat split].
    apply try_update_order_inv in Htry as (j & v & x & y & z & _ & _ & ->).
    split; [reflexivity|]. split; [reflexivity|].
    unfold update_orders. simpl. apply length_fmap.
  - unfold admin_delete_order. destruct (negb (is_admin s)); [by split|].
    destruct (bind_param 0 _); split; reflexivity.
  - unfold admin_get_all. destruct (negb (is_admin s)); reflexivity.
Qed.

(** X12: for an admin, get-all always answers 200, whatever the blobs hold: it
    has one entry for each product, in the order of the table, and one for
    each order, newest first; a blob that is NULL or is not JSON shows as an
    empty object, or as an empty list for the items. *)
Theorem admin_get_all_total (s : session) (st : state) :
  sess_is_admin s = true →
  ∃ ps sorted,
    admin_get_all s st =
      (Ok (jsonify 200 [("products", JArr ps);
                        ("orders", JArr (admin_order_entry <$> sorted))]), st) ∧
    length ps = length (products st) ∧
    (∀ i p, products st !! i = Some p →
       ∃ entry, ps !! i = Some entry ∧
         jfield "id" entry = Some (JStr (p_id p)) ∧
         jfield "meta_json" entry =
           Some (match p_meta_json p with
                 | Some (Valid j) => j
                 | _ => JObj []
                 end) ∧
         jfield "detail_json" entry =
           Some (match p_detail_json p with
                 | Some (Valid j) => j
                 | _ => JObj []
                 end)) ∧
    sorted ≡ₚ orders st ∧ StronglySorted newer_first sorted ∧
    (∀ o, jfield "items_json" (admin_order_entry o) =
            Some (match o_items_json o with
                  | Some (Valid j) => j
                  | _ => JArr []
                  end) ∧
          jfield "shipping_json" (admin_order_entry o) =
            Some (match o_shipping_json o with
                  | Some (Valid j) => j
                  | _ => JObj []
                  end)).
Proof.
  intros Hadmin. unfold admin_get_all, is_admin. rewrite Hadmin. simpl.
  exists (product_entry <$> products st), (merge_sort newer_first (orders st)).
  split; [done|]. split; [by rewrite length_fmap|]. split.
  - intros i p Hp. exists (product_entry p).
    rewrite list_lookup_fmap, Hp. split; [done|]. split; [done|].
    unfold product_entry, loads_or, loads_cell. simpl.
    split; [by destruct (p_meta_json p) as [[]|]|
            by destruct (p_detail_json p) as [[]|]].
  - split; [apply merge_sort_Permutation|].
    split; [apply (StronglySorted_merge_sort _)|].
    intros o. unfold admin_order_entry, loads_or, loads_cell. simpl.
    split; [by destruct (o_items_json o) as [[]|]|
            by destruct (o_shipping_json o) as [[]|]].
Qed.

Lemma admin_get_all_total_witness :
  sess_is_admin admin_session = true ∧
  ∃ ps sorted entry,
    admin_get_all admin_session broken_catalogue =
      (Ok (jsonify 200 [("products", JArr ps);
                        ("orders", JArr (admin_order_entry <$> sorted))]),
       broken_catalogue) ∧
    ps !! 0%nat = Some entry ∧
    jfield "meta_json" entry = Some (JObj []) ∧
    jfield "detail_json" entry = Some (JObj []).
Proof.
  split; [reflexivity|].
  destruct (admin_get_all_total admin_session broken_catalogue eq_refl)
    as (ps & sorted & Hr & _ & Hentry & _).
  destruct (Hentry 0%nat _ eq_refl) as (entry & Hps & _ & Hmeta & Hdetail).
  exists ps, sorted, entry. repeat split; assumption.
Defined.

(** ** Product listing: failures, pages and the search *)




(** X14: with [page >= 1] and [limit > 0] the pages cut the sorted matching rows
    into consecutive pieces: the page comes right after the first
    [(page - 1) * limit] rows, it is full unless it is the last, and a page
    past the end is empty. *)
Theorem pages_are_segments (args : gmap string string) (st : state)
    (page limit : Z) :
  page_limit args = (page, limit) → 1 ≤ page → 0 < limit →
  ∃ before after,
    sorted_matching args st = (before ++ page_rows args st ++ after)%list ∧
    length before =
      Nat.min (Z.to_nat ((page - 1) * limit)) (length (sorted_matching args st)) ∧
    (after ≠ [] → length (page_rows args st) = Z.to_nat limit) ∧
    (Z.of_nat (length (sorted_matching args st)) ≤ (page - 1) * limit →
     page_rows args st = []).
Proof.
  intros Hpl Hpage Hlimit. unfold page_rows, limit_offset. rewrite Hpl. simpl.
  replace (limit <? 0) with false by (symmetry; apply Z.ltb_ge; lia).
  set (rows := sorted_matching args st).
  set (n := Z.to_nat ((page - 1) * limit)). set (m := Z.to_nat limit).
  exists (take n rows), (drop m (drop n rows)).
  split; [by rewrite !take_drop|]. split; [apply length_take|]. split.
  - intros Hafter. rewrite length_take. apply Nat.min_l.
    destruct (decide (m ≤ length (drop n rows))%nat) as [|Hlt]; [done|].
    rewrite drop_ge in Hafter by lia. done.
  - intros Hlen. rewrite drop_ge by lia. by destruct m.
Qed.

Lemma pages_are_segments_witness :
  page_limit second_page = (2, 1) ∧ 1 ≤ 2 ∧ 0 < 1 ∧
  ∃ before after,
    sorted_matching second_page catalogue =
      (before ++ page_rows second_page catalogue ++ after)%list ∧
    length before = 1%nat.
Proof.
  assert (H : page_limit second_page = (2, 1)) by (vm_compute; reflexivity).
  destruct (pages_are_segments second_page catalogue 2 1 H) as
    (before & after & Hs & Hb & _); [lia|lia|].
  split; [exact H|]. split; [lia|]. split; [lia|].
  exists before, after. split; [exact Hs|]. rewrite Hb. vm_compute. reflexivity.
Defined.






(** ** Uploads *)

Lemma all_chars_keep p s : all_chars p (keep p s) = true.
Proof.
  induction s as [|c s IH]; [done|]. simpl.
  destruct (p c) eqn:Hc; [|done]. simpl. by rewrite Hc.
Qed.

Lemma all_chars_lstrip p drop s :
  all_chars p s = true → all_chars p (lstrip drop s) = true.
Proof.
  induction s as [|c s IH]; [done|]. simpl.
  intros [Hc Hs]%andb_true_iff. destruct (drop c); [by apply IH|].
  simpl. by rewrite Hc.
Qed.

Lemma all_chars_rstrip p drop s :
  all_chars p s = true → all_chars p (rstrip drop s) = true.
Proof.
  induction s as [|c s IH]; [done|]. simpl.
  intros [Hc Hs]%andb_true_iff. specialize (IH Hs).
  destruct (rstrip drop s) as [|d t].
  - destruct (drop c); [done|]. simpl. by rewrite Hc.
  - simpl in *. by rewrite Hc.
Qed.

Lemma secure_filename_chars nfkd_ascii name :
  all_chars filename_char (secure_filename nfkd_ascii name) = true.
Proof.
  unfold secure_filename.
  apply all_chars_rstrip, all_chars_lstrip, all_chars_keep.
Qed.

(** X16: whatever the uid, the file name and the uuid are, a successful upload
    stores the file under proofs/ followed by a name made only of ASCII
    letters, digits, [_], [.] and [-] (so without a path separator), returns
    that name and the URL /static/proofs/ followed by it, keeps every other
    stored file and holds the content that was sent. *)
Theorem upload_stores_safely (nfkd_ascii : ascii → string) (s : session)
    (files : gmap string file_storage) (now : Z) (uuid_hex : string)
    (st : state) (r : response) (st' : state) :
  upload_file nfkd_ascii s files now uuid_hex st = (Ok r, st') →
  status_code r = 200 →
  ∃ stored file,
    files !! "file" = Some file ∧
    field "filename" r = Some (JStr stored) ∧
    field "url" r = Some (JStr ("/static/proofs/" +:+ stored)) ∧
    all_chars filename_char stored = true ∧
    proofs st' !! ("proofs/" +:+ stored) = Some (content file) ∧
    (∀ path, path ≠ "proofs/" +:+ stored → proofs st' !! path = proofs st !! path).
Proof.
  unfold upload_file. destruct (sess_user s) as [u|]; [|by intros [= <- <-]].
  destruct (files !! "file") as [file|]; [|by intros [= <- <-]].
  destruct (decide (filename file = "")); [by intros [= <- <-]|].
  destruct (allowed_file (filename file)); [|by intros [= <- <-]].
  intros [= <- <-] _. eexists _, file. split; [reflexivity|].
  split; [reflexivity|]. split; [reflexivity|].
  split; [apply secure_filename_chars|]. split.
  - cbn [proofs set_proofs]. apply lookup_insert_eq.
  - intros path Hne. cbn [proofs set_proofs]. by apply lookup_insert_ne.
Qed.

Lemma upload_stores_safely_witness :
  ∃ r st' stored,
    upload_file (λ _, "") {| sess_user := Some slash_user; sess_is_admin := false |}
      {[ "file" := scan ]} 1700000000 "9f86d081884c7d659a2feaa0c55ad015" ledger
      = (Ok r, st') ∧
    status_code r = 200 ∧
    field "filename" r = Some (JStr stored) ∧
    all_chars filename_char stored = true.
Proof.
  destruct (upload_file (λ _, "")
              {| sess_user := Some slash_user; sess_is_admin := false |}
              {[ "file" := scan ]} 1700000000 "9f86d081884c7d659a2feaa0c55ad015"
              ledger) as [[r|e] st'] eqn:E; [|vm_compute in E; discriminate].
  assert (H200 : status_code r = 200)
    by (vm_compute in E; injection E as <- _; reflexivity).
  destruct (upload_stores_safely (λ _, "")
              {| sess_user := Some slash_user; sess_is_admin := false |}
              {[ "file" := scan ]} 1700000000 "9f86d081884c7d659a2feaa0c55ad015"
              ledger r st' E H200) as (stored & file & _ & Hname & _ & Hsafe & _).
  exists r, st', stored. repeat split; assumption.
Defined.

(** ** Sessions *)

(** X17: a login with a token the identity provider accepts signs the user of
    the token in, with the name Collector when the token has none, and keeps
    the admin flag; list-mine and order creation then act for that user.  A
    login without a token answers 400 and one with a refused token 401, and
    both leave the session as it was, so that a user who was signed in
    stays signed in. *)
Theorem api_login_flow (verify_id_token : json → option decoded_token)
    (real_to_text : Q → string) (s : session) (data : gmap string json)
    (now : Z) (st : state) :
  let id_token := default JNull (data !! "idToken") in
  (py_truthy id_token = false →
   api_login verify_id_token s data =
     (jsonify 400 [("error", JStr "No token provided")], s)) ∧
  (py_truthy id_token = true → verify_id_token id_token = None →
   api_login verify_id_token s data =
     (jsonify 401 [("error", JStr "Invalid token")], s)) ∧
  (∀ token,
     py_truthy id_token = true → verify_id_token id_token = Some token →
     let s' := (api_login verify_id_token s data).2 in
     (api_login verify_id_token s data).1 = jsonify 200 [("success", JBool true)] ∧
     sess_is_admin s' = sess_is_admin s ∧
     (∃ u, sess_user s' = Some u ∧ uid u = tok_uid token ∧
           (tok_claims token !! "name" = None → name u = JStr "Collector")) ∧
     auth_page s' = Redirect "/" ∧
     orders (get_my_orders s' now st).2 =
       delete_stale (tok_uid token) now (orders st) ∧
     (∀ st', try_create_order real_to_text
               {| uid := tok_uid token;
                  email := default JNull (tok_claims token !! "email");
                  name := default (JStr "Collector") (tok_claims token !! "name") |}
               data now st = Ok st' →
             ∃ o, orders (create_order real_to_text s' data now st).2 =
                    (orders st ++ [o])%list ∧ o_uid o = tok_uid token)).
Proof.
  cbv zeta. unfold api_login. split; [|split].
  - by intros ->.
  - by intros -> ->.
  - intros token -> ->. simpl. split; [done|]. split; [done|]. split.
    + eexists. split; [reflexivity|]. split; [done|]. simpl. by intros ->.
    + split; [done|]. split.
      * unfold get_my_orders. simpl. by destruct (mapR _ _).
      * intros st' Htry. unfold create_order. simpl. rewrite Htry. simpl.
        apply try_create_order_inv in Htry
          as (v1 & v2 & v3 & v4 & v5 & _ & _ & _ & ->).
        by eexists.
Qed.

Lemma api_login_flow_witness :
  py_truthy (default JNull
               (({[ "idToken" := JStr "token-of-ann" ]} : gmap string json)
                  !! "idToken")) = true ∧
  one_token (default JNull
               (({[ "idToken" := JStr "token-of-ann" ]} : gmap string json)
                  !! "idToken"))
    = Some {| tok_uid := "ann"; tok_claims := ∅ |} ∧
  orders (get_my_orders
            (api_login one_token anonymous {[ "idToken" := JStr "token-of-ann" ]}).2
            200000 ledger).2 = delete_stale "ann" 200000 (orders ledger).
Proof.
  assert (H1 : py_truthy (default JNull
                 (({[ "idToken" := JStr "token-of-ann" ]} : gmap string json)
                    !! "idToken")) = true) by (vm_compute; reflexivity).
  assert (H2 : one_token (default JNull
                 (({[ "idToken" := JStr "token-of-ann" ]} : gmap string json)
                    !! "idToken"))
               = Some {| tok_uid := "ann"; tok_claims := ∅ |})
    by (vm_compute; reflexivity).
  destruct (api_login_flow one_token (λ _, "") anonymous
              {[ "idToken" := JStr "token-of-ann" ]} 200000 ledger)
    as (_ & _ & Hok).
  destruct (Hok _ H1 H2) as (_ & _ & _ & _ & Hlist & _).
  split; [exact H1|]. split; [exact H2|]. exact Hlist.
Defined.

(** X18: logging out signs the user out and nothing more: list-mine, order
    creation and upload answer 401 afterwards and the sign-in page is served
    again, but the admin flag stays, and every admin route answers as
    before the logout. *)
Theorem logout_keeps_admin (real_to_text : Q → string)
    (text_to_real : string → option Q) (nfkd_ascii : ascii → string)
    (s : session) (data : gmap string json) (files : gmap string file_storage)
    (now : Z) (uuid_hex : string) (st : state) :
  let s' := (logout s).2 in
  (logout s).1 = Redirect "/" ∧
  auth_page s' = Render "auth.html" [] ∧
  get_my_orders s' now st = (Ok unauthorized, st) ∧
  create_order real_to_text s' data now st = (Ok unauthorized, st) ∧
  upload_file nfkd_ascii s' files now uuid_hex st = (Ok unauthorized, st) ∧
  sess_is_admin s' = sess_is_admin s ∧
  admin_get_all s' st = admin_get_all s st ∧
  admin_update_product real_to_text text_to_real s' data st =
    admin_update_product real_to_text text_to_real s data st ∧
  admin_update_order real_to_text s' data st =
    admin_update_order real_to_text s data st ∧
  admin_delete_order real_to_text s' data st =
    admin_delete_order real_to_text s data st.
Proof. cbv zeta. repeat split. Qed.

(** X19: the admin password: the right one sets the admin flag, after which
    get-all answers 200, and keeps the signed-in user; anything else, also
    a body without a password, answers 401 and leaves the session as it
    was, so that a session that was admin stays admin. *)
Theorem admin_login_flow (s : session) (data : gmap string json) (st : state) :
  (data !! "password" = Some (JStr "admin123") →
   let s' := (admin_login s data).2 in
   (admin_login s data).1 = jsonify 200 [("success", JBool true)] ∧
   sess_is_admin s' = true ∧ sess_user s' = sess_user s ∧
   ∃ r, admin_get_all s' st = (Ok r, st) ∧ status_code r = 200) ∧
  (data !! "password" ≠ Some (JStr "admin123") →
   admin_login s data = (jsonify 401 [("error", JStr "Wrong password")], s)).
Proof.
  unfold admin_login. split.
  - intros ->. simpl. repeat split. by eexists.
  - intros Hne. destruct (data !! "password") as [j|]; [|done].
    destruct j as [| | | |p| |]; try done.
    destruct (decide (p = "admin123")) as [->|Hp]; [done|].
    repeat (destruct p as [|[[] [] [] [] [] [] [] []] p]; try done).
Qed.

Lemma admin_login_flow_witness :
  ({[ "password" := JStr "admin123" ]} : gmap string json) !! "password"
    = Some (JStr "admin123") ∧
  ({[ "password" := JStr "admin" ]} : gmap string json) !! "password"
    ≠ Some (JStr "admin123") ∧
  sess_is_admin (admin_login anonymous {[ "password" := JStr "admin123" ]}).2 = true ∧
  admin_login admin_session {[ "password" := JStr "admin" ]} =
    (jsonify 401 [("error", JStr "Wrong password")], admin_session).
Proof.
  assert (H1 : ({[ "password" := JStr "admin123" ]} : gmap string json)
                 !! "password" = Some (JStr "admin123")) by (vm_compute; reflexivity).
  assert (H2 : ({[ "password" := JStr "admin" ]} : gmap string json)
                 !! "password" ≠ Some (JStr "admin123")) by (vm_compute; discriminate).
  split; [exact H1|]. split; [exact H2|]. split.
  - destruct (admin_login_flow anonymous {[ "password" := JStr "admin123" ]} ledger)
      as [Hok _]. by destruct (Hok H1) as (_ & Hflag & _).
  - exact (proj2 (admin_login_flow admin_session {[ "password" := JStr "admin" ]}
                    ledger) H2).
Defined.

Lemma listable_kept_witness :
  Forall listable (orders ledger) ∧
  Forall listable
    (orders (create_order (λ _, "") ann_session new_order 200000 ledger).2).
Proof.
  assert (H : Forall listable (orders ledger))
    by (repeat constructor; by eexists _, _).
  split; [exact H|].
  exact (proj1 (listable_kept (λ _, "") ann_session new_order 200000 ledger H)).
Defined.

Lemma allowed_file_spec_witness :
  (∃ stem ext, "scan.v2.PNG" = stem +:+ "." +:+ ext ∧ has_dot ext = false ∧
               lower ext ∈ ALLOWED_EXTENSIONS) ∧
  allowed_file "scan.v2.PNG" = true.
Proof.
  assert (H : ∃ stem ext, "scan.v2.PNG" = stem +:+ "." +:+ ext ∧
                          has_dot ext = false ∧ lower ext ∈ ALLOWED_EXTENSIONS).
  { exists "scan.v2", "PNG". split; [reflexivity|]. split; [reflexivity|].
    replace (lower "PNG") with "png" by reflexivity.
    unfold ALLOWED_EXTENSIONS. rewrite !elem_of_union, !elem_of_singleton. auto. }
  split; [exact H|]. exact (proj2 (allowed_file_spec "scan.v2.PNG") H).
Defined.
